(** * fidas-uploader: the incremental synchronisation engine

    A shallow embedding of [metadata_table.py] and [upload_to_citiesair.py]:
    the watermark store, the remote listing, file selection, row extraction,
    delivery and the polling loop, followed by the properties of the
    specification that concern them.

    Conventions of the embedding.
    - A Python [str] is a [string]; characters are compared by code point.
    - A naive [datetime.datetime] is the record [datetime]; its constructor
      only builds valid calendar values, as Python's does.
    - The [meta] table of the SQLite database is a [gmap string string].
    - Numeric cells of a parsed file are binary64 floats ([PrimFloat]); a
      date or time cell is a text or is missing.
    - A call that may raise returns a [result]; the exception classes that the
      source distinguishes are the constructors of [exn].
    - Names of the source are kept; [appConfig] is not part of the sources and
      its constants appear as section variables. *)

From Stdlib Require Import ZArith List String Ascii Bool Lia Floats Eqdep_dec.
From Stdlib Require Import Sorting.Sorted Sorting.Permutation.
From stdpp Require Import base option list gmap strings sorting.

Local Open Scope Z_scope.

(** * The model *)

(** ** Python's sequence comparison

    Tuples, strings and datetimes are all compared lexicographically. *)

Module Lex.

Fixpoint compare (a b : list Z) : comparison :=
  match a, b with
  | [], [] => Eq
  | [], _ :: _ => Lt
  | _ :: _, [] => Gt
  | x :: a', y :: b' =>
      match x ?= y with
      | Eq => compare a' b'
      | c => c
      end
  end.

Definition ltb (a b : list Z) : bool :=
  match compare a b with Lt => true | _ => false end.

Definition leb (a b : list Z) : bool :=
  match compare a b with Gt => false | _ => true end.

End Lex.

(** ** Exceptions and results

    The exception classes that the source tells apart.  [ftplib.all_errors]
    is [(ftplib.Error, OSError, EOFError)]; [ftplib.Error] has the four
    subclasses listed first, and [requests.RequestException] is a subclass
    of [OSError]. *)

Inductive exn : Type :=
| error_reply
| error_temp
| error_perm
| error_proto
| OSError
| EOFError
| ValueError
| TypeError
| OverflowError
| RequestException
| NameError (name : string).

Inductive result (A : Type) : Type :=
| Ok (a : A)
| Raise (e : exn).
Arguments Ok {A} a.
Arguments Raise {A} e.

(** [isinstance(e, ftplib.all_errors)]; the source imports it as [FTP_ERRORS]. *)
Definition FTP_ERRORS (e : exn) : bool :=
  match e with
  | error_reply | error_temp | error_perm | error_proto | OSError | EOFError
  | RequestException => true
  | _ => false
  end.

(** ** Naive datetimes *)

Definition MINYEAR : Z := 1.
Definition MAXYEAR : Z := 9999.

Definition is_leap (y : Z) : bool :=
  (y mod 4 =? 0) && (negb (y mod 100 =? 0) || (y mod 400 =? 0)).

Definition days_in_month (y m : Z) : Z :=
  if m =? 2 then (if is_leap y then 29 else 28)
  else if (m =? 4) || (m =? 6) || (m =? 9) || (m =? 11) then 30
  else 31.

(** The range checks of the [datetime] constructor. *)
Definition valid_fields (y mo d h mi s us : Z) : bool :=
  (MINYEAR <=? y) && (y <=? MAXYEAR) &&
  (1 <=? mo) && (mo <=? 12) &&
  (1 <=? d) && (d <=? days_in_month y mo) &&
  (0 <=? h) && (h <=? 23) &&
  (0 <=? mi) && (mi <=? 59) &&
  (0 <=? s) && (s <=? 59) &&
  (0 <=? us) && (us <=? 999999).

Record datetime : Type := mk_datetime {
  year : Z;
  month : Z;
  day : Z;
  hour : Z;
  minute : Z;
  second : Z;
  microsecond : Z;
  datetime_ok : valid_fields year month day hour minute second microsecond = true
}.

(** [datetime(y, mo, d, h, mi, s, us)]; [None] stands for its [ValueError]. *)
Definition datetime_new (y mo d h mi s us : Z) : option datetime :=
  match bool_dec (valid_fields y mo d h mi s us) true with
  | left H => Some (mk_datetime y mo d h mi s us H)
  | right _ => None
  end.

(** [datetime.min] *)
Definition datetime_min : datetime := mk_datetime 1 1 1 0 0 0 0 eq_refl.

Definition dt_tuple (t : datetime) : list Z :=
  [year t; month t; day t; hour t; minute t; second t; microsecond t].

(** [a < b] and [a <= b] on naive datetimes. *)
Definition dt_ltb (a b : datetime) : bool := Lex.ltb (dt_tuple a) (dt_tuple b).
Definition dt_leb (a b : datetime) : bool := Lex.leb (dt_tuple a) (dt_tuple b).

(** [t.replace(microsecond=0)]: the constructor is called again with the
    microsecond set to zero, and it accepts what it accepted before. *)
Definition replace_microsecond_0 (t : datetime) : datetime :=
  default t (datetime_new (year t) (month t) (day t) (hour t) (minute t) (second t) 0).

(** ** Strings as sequences of code points *)

Definition code (c : ascii) : Z := Z.of_N (N_of_ascii c).

Definition str_codes (s : string) : list Z := map code (list_ascii_of_string s).

(** [a <= b] on [str]. *)
Definition str_leb (a b : string) : bool := Lex.leb (str_codes a) (str_codes b).

(** ** [strftime] and [strptime] with the format [%Y%m%d%H%M%S]

    [strftime] hands the format to the C library.  The model follows CPython
    3.11 on glibc: [%m], [%d], [%H], [%M] and [%S] are
    written with two digits, and [%Y] is the year in decimal as it is, so
    that a year below 1000 is written with fewer than four digits. *)

Definition digit (d : Z) : ascii := ascii_of_N (Z.to_N (48 + d)).

Definition zpad2 (n : Z) : list ascii := [digit (n / 10); digit (n mod 10)].

Definition zpad4 (n : Z) : list ascii :=
  [digit (n / 1000); digit (n / 100 mod 10); digit (n / 10 mod 10); digit (n mod 10)].

(** [%Y] *)
Definition year_text (y : Z) : list ascii :=
  if y <? 10 then [digit y]
  else if y <? 100 then [digit (y / 10); digit (y mod 10)]
  else if y <? 1000 then [digit (y / 100); digit (y / 10 mod 10); digit (y mod 10)]
  else zpad4 y.

Definition strftime (t : datetime) : string :=
  string_of_list_ascii
    (year_text (year t) ++ zpad2 (month t) ++ zpad2 (day t) ++
     zpad2 (hour t) ++ zpad2 (minute t) ++ zpad2 (second t)).

(** [strptime] compiles the format to a regular expression with one group per
    directive and takes the first match of a backtracking search.  A matcher
    returns every way of matching a prefix, in the order the search tries
    them; the first element is the match the search reports. *)

Module Re.

Definition matcher : Type := list ascii -> list (list ascii * list ascii).

(** A character class [[lo-hi]]. *)
Definition cls (lo hi : ascii) : matcher := fun s =>
  match s with
  | c :: r => if (code lo <=? code c) && (code c <=? code hi) then [([c], r)] else []
  | [] => []
  end.

Definition lit (c : ascii) : matcher := cls c c.

(** [\d] *)
Definition dig : matcher := cls "0" "9".

Definition seq (a b : matcher) : matcher := fun s =>
  '(x, r) ← a s; '(y, r') ← b r; [(x ++ y, r')].

Definition alt (a b : matcher) : matcher := fun s => a s ++ b s.

(** [%Y]: [\d\d\d\d] *)
Definition Y : matcher := seq dig (seq dig (seq dig dig)).
(** [%m]: [1[0-2]|0[1-9]|[1-9]] *)
Definition m : matcher :=
  alt (seq (lit "1") (cls "0" "2")) (alt (seq (lit "0") (cls "1" "9")) (cls "1" "9")).
(** [%d]: [3[0-1]|[1-2]\d|0[1-9]|[1-9]| [1-9]] *)
Definition d : matcher :=
  alt (seq (lit "3") (cls "0" "1"))
    (alt (seq (cls "1" "2") dig)
       (alt (seq (lit "0") (cls "1" "9"))
          (alt (cls "1" "9") (seq (lit " ") (cls "1" "9"))))).
(** [%H]: [2[0-3]|[0-1]\d|\d] *)
Definition H : matcher :=
  alt (seq (lit "2") (cls "0" "3")) (alt (seq (cls "0" "1") dig) dig).
(** [%M]: [[0-5]\d|\d] *)
Definition M : matcher := alt (seq (cls "0" "5") dig) dig.
(** [%S]: [6[0-1]|[0-5]\d|\d] *)
Definition S : matcher :=
  alt (seq (lit "6") (cls "0" "1")) (alt (seq (cls "0" "5") dig) dig).

(** [int(text)] on the text of a group: decimal digits after optional blanks. *)
Definition int (s : list ascii) : Z :=
  fold_left (fun acc c =>
    if (code "0" <=? code c) && (code c <=? code "9") then acc * 10 + (code c - 48) else acc)
    s 0.

End Re.

(** The matches of the whole format, each with the six group values and the
    text left over. *)
Definition format_regex (s : list ascii) : list (list Z * list ascii) :=
  '(gY, r1) ← Re.Y s;
  '(gm, r2) ← Re.m r1;
  '(gd, r3) ← Re.d r2;
  '(gH, r4) ← Re.H r3;
  '(gM, r5) ← Re.M r4;
  '(gS, r6) ← Re.S r5;
  [([Re.int gY; Re.int gm; Re.int gd; Re.int gH; Re.int gM; Re.int gS], r6)].

(** [datetime.datetime.strptime(s, "%Y%m%d%H%M%S")].  It raises [ValueError]
    when the string does not match, when text remains after the match, and
    when the fields are not a valid date and time. *)
Definition strptime (s : string) : result datetime :=
  match format_regex (list_ascii_of_string s) with
  | [] => Raise ValueError
  | (_, _ :: _) :: _ => Raise ValueError
  | ([y; mo; d; h; mi; sec], []) :: _ =>
      match datetime_new y mo d h mi sec 0 with
      | Some t => Ok t
      | None => Raise ValueError
      end
  | _ => Raise ValueError
  end.

(** ** metadata_table.py: the watermark store *)

(** A module-level name is looked up in the module's globals when the
    statement that mentions it runs; a name that is neither bound there nor a
    builtin raises [NameError]. *)
Definition load_global (globals : list string) (name : string) : result unit :=
  if bool_decide (name ∈ globals) then Ok tt else Raise (NameError name).

(** The names [metadata_table.py] binds: its imports and its three functions. *)
Definition metadata_table_globals : list string :=
  ["Optional"; "Tuple"; "sqlite3"; "datetime";
   "setup_metadata_table"; "get_last_timestamp"; "set_last_timestamp"]%string.

(** The row of [SELECT value FROM meta WHERE key='last_timestamp'] is the
    lookup of that key; [strptime] failing enters the [except Exception]
    handler, whose first statement is [LOGGER.warning(...)]. *)
Definition get_last_timestamp (db : gmap string string) : result (option datetime) :=
  match db !! "last_timestamp"%string with
  | None => Ok None
  | Some ts_str =>
      match strptime ts_str with
      | Ok t => Ok (Some t)
      | Raise _ =>
          match load_global metadata_table_globals "LOGGER" with
          | Ok _ => Ok None
          | Raise e => Raise e
          end
      end
  end.

(** [INSERT OR REPLACE INTO meta (key, value) VALUES ('last_timestamp', ?)] *)
Definition set_last_timestamp (db : gmap string string) (timestamp : datetime)
  : gmap string string :=
  <["last_timestamp"%string := strftime timestamp]> db.

(** ** upload_to_citiesair.py *)

(** The names the module binds: its imports, [LOGGER] and its functions. *)
Definition upload_globals : list string :=
  ["annotations"; "datetime"; "io"; "logging"; "os"; "sqlite3"; "time";
   "FTP"; "FTP_ERRORS"; "List"; "Optional"; "Tuple"; "pd"; "requests";
   "API_URL"; "DB_PATH"; "FTP_HOST"; "FTP_HOME_DIR"; "FTP_PASSWORD"; "FTP_PORT";
   "FTP_USERNAME"; "HEADERS"; "SLEEP_INTERVAL"; "TZ_OFFSET";
   "extract_year_month";
   "setup_metadata_table"; "get_last_timestamp"; "set_last_timestamp";
   "LOGGER";
   "create_ftp_client"; "list_remote_txt_files_with_mtime";
   "select_files_to_process"; "clean"; "process_raw_file";
   "send_measurements_through_api"; "sleep_until_next_run"; "main"]%string.

(** *** Sorting by a key

    [sorted(..., key=...)] and [list.sort()] order by [<=] on the keys;
    a key is given by the sequence of integers it compares as. *)

Definition key_le {A} (key : A -> list Z) : relation A :=
  fun a b => Lex.leb (key a) (key b) = true.

#[global] Instance key_le_dec {A} (key : A -> list Z) a b : Decision (key_le key a b).
Proof. unfold key_le. apply _. Defined.

Definition sorted_by {A} (key : A -> list Z) (l : list A) : list A :=
  merge_sort (key_le key) l.

(** *** The remote listing *)

Definition lower_ascii (c : ascii) : ascii :=
  if (code "A" <=? code c) && (code c <=? code "Z")
  then ascii_of_N (N_of_ascii c + 32) else c.

(** [s.lower()] *)
Definition lower (s : string) : list ascii := map lower_ascii (list_ascii_of_string s).

(** [s.endswith(suffix)] *)
Definition endswith (s suffix : list ascii) : bool :=
  (length suffix <=? length s)%nat &&
  bool_decide (drop (length s - length suffix) s = suffix).

(** What iterating [ftp.mlsd()] does: it yields entries, each a name with its
    facts, and may then raise. *)
Record mlsd_outcome : Type := {
  mlsd_entries : list (string * gmap string string);
  mlsd_raises : option exn
}.

(** The body of the [for name, facts in ftp.mlsd()] loop, for one entry. *)
Definition listing_step (files : list (string * option datetime))
    (entry : string * gmap string string) : list (string * option datetime) :=
  let '(name, facts) := entry in
  if negb (endswith (lower name) (list_ascii_of_string ".txt")) then files
  else
    let mtime :=
      match facts !! "modify"%string with
      | Some modify =>
          if bool_decide (modify = ""%string) then None
          else match strptime modify with
               | Ok t => Some t
               | Raise _ => None
               end
      | None => None
      end in
    files ++ [(name, mtime)].

(** The sort key [(t[1] or datetime.min, t[0])].  The datetime part has a
    fixed length, so comparing the concatenation is comparing the pair. *)
Definition listing_key (t : string * option datetime) : list Z :=
  dt_tuple (default datetime_min (snd t)) ++ str_codes (fst t).

(** [list_remote_txt_files_with_mtime(ftp)].  When the iteration raises, the
    handler [except error_perm as exc] first evaluates the name
    [error_perm]. *)
Definition list_remote_txt_files_with_mtime (mlsd : mlsd_outcome)
  : result (list (string * option datetime)) :=
  let files := fold_left listing_step (mlsd_entries mlsd) [] in
  match mlsd_raises mlsd with
  | None => Ok (sorted_by listing_key files)
  | Some e =>
      match load_global upload_globals "error_perm" with
      | Raise e' => Raise e'
      | Ok _ =>
          match e with
          | error_perm => Ok (sorted_by listing_key files)
          | _ => Raise e
          end
      end
  end.

(** *** Selection *)

(** [select_files_to_process(remote_files, last_timestamp)] *)
Definition select_files_to_process
    (remote_files : list (string * option datetime))
    (last_timestamp : option datetime) : list string :=
  let files_to_process :=
    fold_left (fun (acc : list string) '(filename, mtime) =>
      match mtime with
      | None => acc
      | Some mt =>
          match last_timestamp with
          | None => acc ++ [filename]
          | Some lt => if dt_ltb lt mt then acc ++ [filename] else acc
          end
      end) remote_files [] in
  sorted_by str_codes files_to_process.

(** *** Measurement records *)

(** The values a measurement holds: [None], a float, an [int], a [str]. *)
Inductive value : Type :=
| VNone
| VFloat (f : float)
| VInt (n : Z)
| VStr (s : string).

(** [round(x)] on a float: the nearest integer, ties to the even one;
    [OverflowError] on an infinity and [ValueError] on a NaN.  A finite
    float is [m * 2^e], negated when [s] is set. *)
Definition round_half_even (m : positive) (e : Z) : Z :=
  if 0 <=? e then Z.pos m * 2 ^ e
  else
    let d := 2 ^ (- e) in
    let q := Z.pos m / d in
    let r := Z.pos m mod d in
    match 2 * r ?= d with
    | Lt => q
    | Gt => q + 1
    | Eq => if Z.even q then q else q + 1
    end.

Definition py_round (x : float) : result Z :=
  match Prim2SF x with
  | S754_zero _ => Ok 0
  | S754_infinity _ => Raise OverflowError
  | S754_nan => Raise ValueError
  | S754_finite s m e => Ok (if s then - round_half_even m e else round_half_even m e)
  end.

(** [clean(x, transform=None)]; [pd.isna] of a float cell is the NaN test. *)
Definition clean (x : float) (transform : option (float -> result value)) : result value :=
  if PrimFloat.is_nan x then Ok VNone
  else match transform with
       | Some f => f x
       | None => Ok (VFloat x)
       end.

(** [lambda v: int(round(v * 100))] *)
Definition pressure_transform (v : float) : result value :=
  match py_round (v * 100)%float with
  | Ok n => Ok (VInt n)
  | Raise e => Raise e
  end.

(** One data row of a parsed file: the two text columns and the six numeric
    columns that the extraction reads.  A cell of a text column is [None]
    where the file has nothing, which [pd.read_table] reads as missing. *)
Record RawRow : Type := {
  row_date : option string;
  row_time : option string;
  row_PM1 : float;
  row_PM2_5 : float;
  row_PM10 : float;
  row_rH : float;
  row_T : float;
  row_p : float
}.

(** The result of [pd.read_table]: the header and the data rows. *)
Record DataFrame : Type := {
  columns : list string;
  rows : list RawRow
}.

(** [df.empty] *)
Definition df_empty (df : DataFrame) : bool :=
  match columns df, rows df with
  | [], _ | _, [] => true
  | _, _ => false
  end.

Definition required : list string :=
  ["date"; "time"; "PM1"; "PM2.5"; "PM10"; "rH"; "T"; "p"]%string.

(** What [ftp.retrbinary] and then [pd.read_table] do for one file: the
    transfer raises, or it delivers bytes that fail to parse ([None]) or
    parse to a frame. *)
Inductive retr_outcome : Type :=
| RetrRaises (e : exn)
| RetrBytes (parsed : option DataFrame).

(** [d.isoformat()] of the naive part: [YYYY-MM-DDTHH:MM:SS], with
    [.ffffff] when the microsecond is not zero. *)
Definition zpad6 (n : Z) : list ascii :=
  [digit (n / 100000); digit (n / 10000 mod 10); digit (n / 1000 mod 10);
   digit (n / 100 mod 10); digit (n / 10 mod 10); digit (n mod 10)].

Definition isoformat_naive (t : datetime) : list ascii :=
  zpad4 (year t) ++ ["-"%char] ++ zpad2 (month t) ++ ["-"%char] ++ zpad2 (day t) ++
  ["T"%char] ++ zpad2 (hour t) ++ [":"%char] ++ zpad2 (minute t) ++ [":"%char] ++
  zpad2 (second t) ++
  (if microsecond t =? 0 then [] else "."%char :: zpad6 (microsecond t)).

(** An element of the column [df["ts"]]: a timestamp, or [NaT] where
    pandas found no time to parse. *)
Inductive timestamp : Type :=
| Timestamp (t : datetime)
| NaT.

(** [ts.replace(tzinfo=...).isoformat()], [off] being the text of the offset:
    on [NaT] both calls give [NaT] again, whose text is [NaT]. *)
Definition isoformat (ts : timestamp) (off : list ascii) : string :=
  match ts with
  | Timestamp t => string_of_list_ascii (isoformat_naive t ++ off)
  | NaT => "NaT"
  end.

Section Extraction.

(** [appConfig.TZ_OFFSET], in whole hours. *)
Variable TZ_OFFSET : Z.

(** [pd.to_datetime(df["date"] + " " + df["time"],
    format="%m/%d/%Y %I:%M:%S %p")]: what pandas makes of the two columns,
    one element for each row, or [None] when the expression raises. *)
Variable to_datetime : list (option string) -> list (option string) -> option (list timestamp).

(** [datetime.timezone(datetime.timedelta(hours=TZ_OFFSET))] wants an offset
    strictly between minus and plus 24 hours; its text in [isoformat] is the
    sign, the hours and [:00]. *)
Definition utcoffset_text : result (list ascii) :=
  if (-24 <? TZ_OFFSET) && (TZ_OFFSET <? 24)
  then Ok ((if TZ_OFFSET <? 0 then "-"%char else "+"%char)
           :: zpad2 (Z.abs TZ_OFFSET) ++ list_ascii_of_string ":00")
  else Raise ValueError.

(** The dict [m] built for one row of the frame, [ts] being the row's
    element of [df["ts"]]. *)
Definition build_measurement (row : RawRow) (ts : timestamp)
  : result (gmap string value) :=
  match utcoffset_text with
  | Raise e => Raise e
  | Ok off =>
  match clean (row_T row) None with
  | Raise e => Raise e
  | Ok t =>
  match clean (row_rH row) None with
  | Raise e => Raise e
  | Ok h =>
  match clean (row_p row) (Some pressure_transform) with
  | Raise e => Raise e
  | Ok p =>
  match clean (row_PM1 row) None with
  | Raise e => Raise e
  | Ok p1 =>
  match clean (row_PM2_5 row) None with
  | Raise e => Raise e
  | Ok p25 =>
  match clean (row_PM10 row) None with
  | Raise e => Raise e
  | Ok p10 =>
      Ok (<["ts"%string := VStr (isoformat ts off)]>
         (<["t"%string := t]>
         (<["h"%string := h]>
         (<["p"%string := p]>
         (<["p1"%string := p1]>
         (<["p25"%string := p25]>
         (<["p10"%string := p10]> ∅)))))))
  end end end end end end end.

(** The [for idx, row in df.iterrows()] loop: it stops at the first row whose
    dict cannot be built. *)
Fixpoint build_measurements (stamped : list (RawRow * timestamp))
  : result (list (gmap string value)) :=
  match stamped with
  | [] => Ok []
  | (row, ts) :: rest =>
      match build_measurement row ts with
      | Raise e => Raise e
      | Ok m =>
          match build_measurements rest with
          | Raise e => Raise e
          | Ok ms => Ok (m :: ms)
          end
      end
  end.

(** [df[df["ts"] > last_timestamp]], applied when [last_timestamp] is set;
    a comparison with [NaT] is false. *)
Definition is_new (last_timestamp : option datetime) (r : RawRow * timestamp) : bool :=
  match last_timestamp with
  | None => true
  | Some lt =>
      match snd r with
      | Timestamp t => dt_ltb lt t
      | NaT => false
      end
  end.

(** The sort key of [df.sort_values("ts")]: ascending, [NaT] last. *)
Definition ts_key (r : RawRow * timestamp) : list Z :=
  match snd r with
  | Timestamp t => 0 :: dt_tuple t
  | NaT => [1]
  end.

(** [process_raw_file(ftp, filename, last_timestamp)], [fetched] being what
    [ftp.retrbinary("RETR " + filename)] and [pd.read_table] do. *)
Definition process_raw_file (fetched : retr_outcome) (last_timestamp : option datetime)
  : result (option (list (gmap string value) * timestamp)) :=
  match fetched with
  | RetrRaises e => if FTP_ERRORS e then Ok None else Raise e
  | RetrBytes None => Ok None
  | RetrBytes (Some df) =>
      if df_empty df then Ok None
      else if negb (forallb (fun col => bool_decide (col ∈ columns df)) required) then Ok None
      else
        match to_datetime (row_date <$> rows df) (row_time <$> rows df) with
        | None => Ok None
        | Some tss =>
            let stamped := filter (fun r => is_new last_timestamp r = true)
                                  (zip (rows df) tss) in
            match stamped with
            | [] => Ok None
            | _ :: _ =>
                let df_sorted := sorted_by ts_key stamped in
                match last df_sorted with
                | None => Ok None
                | Some (_, newest_timestamp) =>
                    match build_measurements df_sorted with
                    | Raise e => Raise e
                    | Ok measurements => Ok (Some (measurements, newest_timestamp))
                    end
                end
            end
        end
  end.

End Extraction.

(** *** Delivery *)

(** What [requests.post] does: it raises, or it returns a response with a
    status code. *)
Inductive post_outcome : Type :=
| PostRaises (e : exn)
| PostResponse (status_code : Z).

(** [send_measurements_through_api(measurements)], [posted] being what
    [requests.post(API_URL, ..., json=measurements)] does. *)
Definition send_measurements_through_api (posted : post_outcome) : result bool :=
  match posted with
  | PostRaises RequestException => Ok false
  | PostRaises e => Raise e
  | PostResponse status_code =>
      Ok (bool_decide (status_code ∈ [200; 207]))
  end.

(** *** The polling loop *)

(** The connection [create_ftp_client()] returns: its listing, and what each
    retrieval does.  Retrievals are numbered in the order the loop issues
    them, so that the same name may be answered differently each time. *)
Record FTP : Type := {
  mlsd : mlsd_outcome;
  retrbinary : nat -> string -> retr_outcome
}.

(** The surroundings of one cycle: whether a connection was obtained, and what
    the ingestion endpoint answers to the batch of each file in turn. *)
Record cycle_env : Type := {
  create_ftp_client : option FTP;
  post : nat -> list (gmap string value) -> post_outcome
}.

(** The state the loop carries: the [meta] table, the local variable
    [last_timestamp], and the arguments of the calls of [set_last_timestamp]
    that have stored a value so far, oldest first. *)
Record loop_state : Type := {
  st_db : gmap string string;
  st_last_timestamp : option datetime;
  st_calls : list datetime
}.

(** [setup_metadata_table(DB_PATH)]: [CREATE TABLE IF NOT EXISTS] leaves the
    rows of an existing table alone. *)
Definition setup_metadata_table (db : gmap string string) : gmap string string := db.

Section Main.

Variable TZ_OFFSET : Z.
Variable to_datetime : list (option string) -> list (option string) -> option (list timestamp).

(** The body of [for filename in files_to_process], for the [i]-th file.  The
    second component is the exception that leaves the loop, if any.  In
    [set_last_timestamp], [timestamp.strftime] raises [ValueError] on [NaT],
    before the store is touched. *)
Definition process_file (ftp : FTP) (env : cycle_env) (i : nat)
    (st : loop_state) (filename : string) : loop_state * option exn :=
  match process_raw_file TZ_OFFSET to_datetime (retrbinary ftp i filename)
                         (st_last_timestamp st) with
  | Raise e => (st, Some e)
  | Ok None => (st, None)
  | Ok (Some (measurements, newest_timestamp)) =>
      match send_measurements_through_api (post env i measurements) with
      | Raise e => (st, Some e)
      | Ok false => (st, None)
      | Ok true =>
          match newest_timestamp with
          | NaT => (st, Some ValueError)
          | Timestamp t =>
              ({| st_db := set_last_timestamp (st_db st) t;
                  st_last_timestamp := Some t;
                  st_calls := st_calls st ++ [t] |}, None)
          end
      end
  end.

Fixpoint process_files (ftp : FTP) (env : cycle_env) (i : nat)
    (st : loop_state) (files : list string) : loop_state * option exn :=
  match files with
  | [] => (st, None)
  | filename :: rest =>
      match process_file ftp env i st filename with
      | (st', Some e) => (st', Some e)
      | (st', None) => process_files ftp env (S i) st' rest
      end
  end.

(** One pass of the [while True] body, up to the sleep.  The [finally] clause
    closes the connection and lets an exception of the body through. *)
Definition cycle (env : cycle_env) (db : gmap string string) (calls : list datetime)
  : gmap string string * list datetime * option exn :=
  match create_ftp_client env with
  | None => (db, calls, None)
  | Some ftp =>
      match list_remote_txt_files_with_mtime (mlsd ftp) with
      | Raise e => (db, calls, Some e)
      | Ok remote_files =>
          match get_last_timestamp db with
          | Raise e => (db, calls, Some e)
          | Ok last_timestamp =>
              let files_to_process := select_files_to_process remote_files last_timestamp in
              let '(st, e) :=
                process_files ftp env 0
                  {| st_db := db; st_last_timestamp := last_timestamp; st_calls := calls |}
                  files_to_process in
              (st_db st, st_calls st, e)
          end
      end
  end.

(** [main()] over the cycles whose surroundings are [envs]: the loop goes on
    until an exception leaves it, which ends the process. *)
Fixpoint cycles (envs : list cycle_env) (db : gmap string string) (calls : list datetime)
  : gmap string string * list datetime * option exn :=
  match envs with
  | [] => (db, calls, None)
  | env :: rest =>
      match cycle env db calls with
      | (db', calls', Some e) => (db', calls', Some e)
      | (db', calls', None) => cycles rest db' calls'
      end
  end.

Definition main (envs : list cycle_env) (db : gmap string string)
  : gmap string string * list datetime * option exn :=
  cycles envs (setup_metadata_table db) [].

End Main.

(** * Definitions for the statements *)

(** ** Predicates *)

(** The first of the matches a search finds, which is the one it reports. *)
Definition first_is {A} (l : list A) (x : A) : Prop := exists tl, l = x :: tl.

(** The test the loop of [select_files_to_process] applies to a descriptor. *)
Definition selected (last_timestamp : option datetime)
    (f : string * option datetime) : Prop :=
  match snd f, last_timestamp with
  | None, _ => False
  | Some _, None => True
  | Some mt, Some lt => dt_ltb lt mt = true
  end.

#[global] Instance selected_dec last_timestamp f : Decision (selected last_timestamp f).
Proof. unfold selected. destruct (snd f), last_timestamp; apply _. Defined.

(** [clean(x)] without a transform. *)
Definition cleaned (x : float) : value :=
  if PrimFloat.is_nan x then VNone else VFloat x.

(** [n] is an integer nearest to the float [x]: a finite float is
    [±m * 2^e], and no integer is closer to it than [n] when the distance
    from [n] is at most one half. *)
Definition nearest_integer (n : Z) (x : spec_float) : Prop :=
  match x with
  | S754_zero _ => n = 0
  | S754_finite s m e =>
      let v := if s then - Z.pos m else Z.pos m in
      if 0 <=? e then n = v * 2 ^ e
      else 2 * Z.abs (n * 2 ^ (- e) - v) <= 2 ^ (- e)
  | _ => False
  end.

Definition is_finite_SF (x : spec_float) : bool :=
  match x with
  | S754_zero _ | S754_finite _ _ _ => true
  | _ => false
  end.

(** An element of the timestamp column is new for a watermark when it is a
    timestamp strictly later than it; without a watermark every element is. *)
Definition newer (watermark : option datetime) (ts : timestamp) : Prop :=
  match watermark, ts with
  | None, _ => True
  | Some w, Timestamp t => dt_ltb w t = true
  | Some _, NaT => False
  end.

#[global] Instance newer_dec watermark ts : Decision (newer watermark ts).
Proof. unfold newer. destruct watermark, ts; apply _. Defined.

(** The ascending order of the timestamp column: timestamps by time, and
    [NaT] after them all. *)
Definition ts_le (a b : timestamp) : Prop :=
  match a, b with
  | Timestamp x, Timestamp y => dt_leb x y = true
  | _, NaT => True
  | NaT, Timestamp _ => False
  end.


(** The values the key [last_timestamp] has held: the one found at the start,
    if any, then the one written by each call, oldest first. *)
Definition stored_values (db : gmap string string) (calls : list datetime) : list string :=
  option_list (db !! "last_timestamp"%string) ++ (strftime <$> calls).

(** Both values are timestamps and the second is not earlier. *)
Definition watermark_le (a b : string) : Prop :=
  exists ta tb, strptime a = Ok ta /\ strptime b = Ok tb /\ dt_leb ta tb = true.

(** The invariant between cycles: the store is the initial one with the
    calls applied, and its history never goes back. *)
Definition history_ok (db0 db : gmap string string) (calls : list datetime) : Prop :=
  db = fold_left set_last_timestamp calls db0 /\
  StronglySorted watermark_le (stored_values db0 calls).

(** The invariant inside a cycle: moreover no value of the history is later
    than the local [last_timestamp]. *)
Definition loop_ok (db0 : gmap string string) (st : loop_state) : Prop :=
  history_ok db0 (st_db st) (st_calls st) /\
  forall v, v ∈ stored_values db0 (st_calls st) ->
    exists tv lt, strptime v = Ok tv /\ st_last_timestamp st = Some lt /\
                  dt_leb tv lt = true.

(** ** An instance of [to_datetime]

    The format [%m/%d/%Y %I:%M:%S %p] read the way [strptime] reads it: the
    groups of the directives, [\s+] for each blank of the format, and the
    hour taken from the 12-hour clock.  An element with a missing cell is
    missing in [df["date"] + " " + df["time"]] and becomes [NaT]; an element
    that the format refuses makes the call raise. *)

Module Clock12.

Definition is_space (c : ascii) : bool :=
  (code c =? 32) || ((9 <=? code c) && (code c <=? 13)).

(** [\s+], the longest run first. *)
Fixpoint spaces (s : list ascii) : list (list ascii * list ascii) :=
  match s with
  | c :: r =>
      if is_space c
      then (spaces r ≫= λ '(x, r'), [(c :: x, r')]) ++ [([c], r)]
      else []
  | [] => []
  end.

(** One letter, either case. *)
Definition letter (c : ascii) : Re.matcher := fun s =>
  match s with
  | x :: r => if bool_decide (lower_ascii x = c) then [([lower_ascii x], r)] else []
  | [] => []
  end.

(** [%p]: [am|pm], ignoring case. *)
Definition p : Re.matcher :=
  Re.alt (Re.seq (letter "a") (letter "m")) (Re.seq (letter "p") (letter "m")).

(** [%I]: [1[0-2]|0[1-9]|[1-9]] *)
Definition I : Re.matcher := Re.m.

Definition format_regex (s : list ascii) : list (list Z * list ascii) :=
  '(gm, r1) ← Re.m s;
  '(_, r2) ← Re.lit "/" r1;
  '(gd, r3) ← Re.d r2;
  '(_, r4) ← Re.lit "/" r3;
  '(gY, r5) ← Re.Y r4;
  '(_, r6) ← spaces r5;
  '(gI, r7) ← I r6;
  '(_, r8) ← Re.lit ":" r7;
  '(gM, r9) ← Re.M r8;
  '(_, r10) ← Re.lit ":" r9;
  '(gS, r11) ← Re.S r10;
  '(_, r12) ← spaces r11;
  '(gp, r13) ← p r12;
  [([Re.int gY; Re.int gm; Re.int gd; Re.int gI; Re.int gM; Re.int gS;
     if bool_decide (gp = ["p"; "m"]%char) then 1 else 0], r13)].

(** The hour of the day from the 12-hour clock and the AM/PM marker. *)
Definition hour24 (i pm : Z) : Z :=
  if pm =? 0 then (if i =? 12 then 0 else i)
  else (if i =? 12 then 12 else i + 12).

(** One text of the column. *)
Definition parse (s : string) : option datetime :=
  match format_regex (list_ascii_of_string s) with
  | ([y; mo; d; i; mi; sec; pm], []) :: _ => datetime_new y mo d (hour24 i pm) mi sec 0
  | _ => None
  end.

(** One element of the column. *)
Definition element (date time : option string) : option timestamp :=
  match date, time with
  | Some d, Some t => Timestamp <$> parse (d ++ " " ++ t)
  | _, _ => Some NaT
  end.

Fixpoint to_datetime (dates times : list (option string)) : option (list timestamp) :=
  match dates, times with
  | d :: dates', t :: times' =>
      match element d t with
      | None => None
      | Some ts => cons ts <$> to_datetime dates' times'
      end
  | _, _ => Some []
  end.

End Clock12.

(** ** Data of the examples

    Some timestamps and rows, and the file [A.txt] of the specification's
    scenarios: rows stamped 2024-01-01 00:00:00 and 00:01:00, listed here
    latest first. *)

Definition dt_2024_01_01_000000 : datetime := mk_datetime 2024 1 1 0 0 0 0 eq_refl.
Definition dt_2024_01_01_000030 : datetime := mk_datetime 2024 1 1 0 0 30 0 eq_refl.
Definition dt_2024_01_01_000100 : datetime := mk_datetime 2024 1 1 0 1 0 0 eq_refl.
Definition dt_0999_01_01_000000 : datetime := mk_datetime 999 1 1 0 0 0 0 eq_refl.
Definition dt_1500_01_01_000000 : datetime := mk_datetime 1500 1 1 0 0 0 0 eq_refl.
Definition dt_9990_10_10_000000 : datetime := mk_datetime 9990 10 10 0 0 0 0 eq_refl.

(** The double that the text [10.005] denotes. *)
Definition pressure_10_005 : float := 0x1.4028f5c28f5c3p+3%float.

(** A row whose pressure, humidity and finest particulate cells are NaN. *)
Definition row_with_nans : RawRow :=
  {| row_date := Some "01/01/2024"%string; row_time := Some "12:00:00 AM"%string;
     row_PM1 := nan; row_PM2_5 := 7.5%float; row_PM10 := 12%float;
     row_rH := nan; row_T := 21.5%float; row_p := nan |}.

Definition row_10_005 : RawRow :=
  {| row_date := Some "01/01/2024"%string; row_time := Some "12:01:00 AM"%string;
     row_PM1 := 3.5%float; row_PM2_5 := 7.5%float; row_PM10 := 12%float;
     row_rH := 40%float; row_T := 21.5%float; row_p := pressure_10_005 |}.

Definition row_midnight : RawRow :=
  {| row_date := Some "01/01/2024"%string; row_time := Some "12:00:00 AM"%string;
     row_PM1 := 3%float; row_PM2_5 := 7%float; row_PM10 := 11.5%float;
     row_rH := 41%float; row_T := 21%float; row_p := nan |}.

Definition df_A : DataFrame :=
  {| columns := required; rows := [row_10_005; row_midnight] |}.

(** A row whose time cell is missing. *)
Definition row_untimed : RawRow :=
  {| row_date := Some "01/01/2024"%string; row_time := None;
     row_PM1 := 3%float; row_PM2_5 := 7%float; row_PM10 := 11.5%float;
     row_rH := 41%float; row_T := 21%float; row_p := nan |}.

(** A file with such a row after a complete one. *)
Definition df_untimed : DataFrame :=
  {| columns := required; rows := [row_midnight; row_untimed] |}.

(** Rows stamped at midnight on the first day of a year. *)
Definition row_of_year (date : string) : RawRow :=
  {| row_date := Some date; row_time := Some "12:00:00 AM"%string;
     row_PM1 := 3%float; row_PM2_5 := 7%float; row_PM10 := 11.5%float;
     row_rH := 41%float; row_T := 21%float; row_p := nan |}.

(** Two files, listed with modification times: [A.txt] with one row of the
    year 999 and [B.txt] with one row of the year 1500. *)
Definition ftp_years : FTP :=
  {| mlsd := {| mlsd_entries :=
                  [("A.txt"%string, {["modify"%string := "20240101000200"%string]});
                   ("B.txt"%string, {["modify"%string := "20240101000300"%string]})];
                mlsd_raises := None |};
     retrbinary := fun _ filename =>
       RetrBytes (Some {| columns := required;
                          rows := [row_of_year (if bool_decide (filename = "A.txt"%string)
                                                then "01/01/0999" else "01/01/1500")] |}) |}.

Definition env_years : cycle_env :=
  {| create_ftp_client := Some ftp_years; post := fun _ _ => PostResponse 200 |}.

Definition ftp_A : FTP :=
  {| mlsd := {| mlsd_entries :=
                  [("A.txt"%string, {["modify"%string := "20240101000200"%string]});
                   ("notes.md"%string, ∅)];
                mlsd_raises := None |};
     retrbinary := fun _ _ => RetrBytes (Some df_A) |}.

Definition env_accepting : cycle_env :=
  {| create_ftp_client := Some ftp_A; post := fun _ _ => PostResponse 200 |}.

Definition env_rejecting : cycle_env :=
  {| create_ftp_client := Some ftp_A; post := fun _ _ => PostResponse 500 |}.

Definition db_000030 : gmap string string :=
  {["last_timestamp"%string := "20240101000030"%string]}.

Definition st_000030 : loop_state :=
  {| st_db := db_000030; st_last_timestamp := Some dt_2024_01_01_000030; st_calls := [] |}.

(** An endpoint that accepts a batch of exactly [n] records. *)
Definition env_accepting_exactly (n : nat) : cycle_env :=
  {| create_ftp_client := Some ftp_A;
     post := fun _ ms => PostResponse (if (length ms =? n)%nat then 200 else 500) |}.

(** * utils.py *)

Module Utils.

(** [os.path.basename(p)]: what follows the last slash. *)
Definition basename (p : list ascii) : list ascii :=
  fold_left (fun acc c => if bool_decide (c = "/"%char) then [] else acc ++ [c]) p [].

(** One character of the pattern under [re.IGNORECASE]. *)
Definition ichar (c : ascii) : Re.matcher := fun s =>
  match s with
  | x :: r => if bool_decide (lower_ascii x = lower_ascii c) then [([x], r)] else []
  | [] => []
  end.

(** A literal run of the pattern. *)
Fixpoint istr (cs : list ascii) : Re.matcher :=
  match cs with
  | [] => fun s => [([], s)]
  | c :: cs' => Re.seq (ichar c) (istr cs')
  end.

(** [\d+], the longest run first. *)
Fixpoint digits (s : list ascii) : list (list ascii * list ascii) :=
  match s with
  | c :: r =>
      match Re.dig (c :: r) with
      | [] => []
      | _ :: _ => (digits r ≫= λ '(x, r'), [(c :: x, r')]) ++ [([c], r)]
      end
  | [] => []
  end.

(** [$] without [re.MULTILINE]: the end of the string, or the position
    before a newline that ends it. *)
Definition eos : Re.matcher := fun s =>
  match s with
  | [] => [([], [])]
  | [c] => if bool_decide (c = "010"%char) then [([], [c])] else []
  | _ => []
  end.

(** [FILENAME_RE.match(s)], the pattern being
    [^DUSTMONITOR_\d+_(\d{4})_(\d{2})\.txt$] with [re.IGNORECASE]: the texts
    of the two groups in each match, in the order of the search. *)
Definition FILENAME_RE (s : list ascii) : list (list ascii * list ascii) :=
  '(_, r1) ← istr (list_ascii_of_string "DUSTMONITOR_") s;
  '(_, r2) ← digits r1;
  '(_, r3) ← ichar "_" r2;
  '(g1, r4) ← Re.Y r3;
  '(_, r5) ← ichar "_" r4;
  '(g2, r6) ← Re.seq Re.dig Re.dig r5;
  '(_, r7) ← istr (list_ascii_of_string ".txt") r6;
  '(_, _) ← eos r7;
  [(g1, g2)].

(** [extract_year_month(filename)] *)
Definition extract_year_month (filename : string) : option (Z * Z) :=
  match FILENAME_RE (basename (list_ascii_of_string filename)) with
  | [] => None
  | (g1, g2) :: _ => Some (Re.int g1, Re.int g2)
  end.

End Utils.

(** * Further definitions for the statements *)

(** A row whose dict can be built: its pressure cell is NaN, or the product
    with 100 is finite. *)
Definition row_ok (r : RawRow) : Prop :=
  PrimFloat.is_nan (row_p r) = true \/
  is_finite_SF (Prim2SF (row_p r * 100)%float) = true.

(** An element of the timestamp column that [set_last_timestamp] writes with
    a year of four digits: a timestamp, not [NaT], of the year 1000 or
    later. *)
Definition storable (ts : timestamp) : Prop :=
  match ts with
  | Timestamp t => 1000 <= year t
  | NaT => False
  end.

(** A retrieval that does not end the process: it raises one of
    [FTP_ERRORS], or the bytes do not parse, or every row of the frame can be
    built and every element of its timestamp column, when the column is
    built, is storable. *)
Definition retr_ok
    (to_datetime : list (option string) -> list (option string) -> option (list timestamp))
    (o : retr_outcome) : Prop :=
  match o with
  | RetrRaises e => FTP_ERRORS e = true
  | RetrBytes None => True
  | RetrBytes (Some df) =>
      Forall row_ok (rows df) /\
      forall tss, to_datetime (row_date <$> rows df) (row_time <$> rows df) = Some tss ->
                  Forall storable tss
  end.

(** A post that does not end the process: what it raises is a
    [RequestException]. *)
Definition post_ok (o : post_outcome) : Prop :=
  match o with
  | PostRaises e => e = RequestException
  | PostResponse _ => True
  end.

(** The surroundings of a cycle in which nothing raises past the handlers. *)
Definition env_ok
    (to_datetime : list (option string) -> list (option string) -> option (list timestamp))
    (env : cycle_env) : Prop :=
  match create_ftp_client env with
  | None => True
  | Some ftp =>
      mlsd_raises (mlsd ftp) = None /\
      forall i filename, retr_ok to_datetime (retrbinary ftp i filename)
  end /\
  forall i measurements, post_ok (post env i measurements).

(** The surroundings of a cycle whose files hold no timestamp before the
    year 1000. *)
Definition four_digit_years
    (to_datetime : list (option string) -> list (option string) -> option (list timestamp))
    (env : cycle_env) : Prop :=
  forall ftp i filename df tss t,
    create_ftp_client env = Some ftp ->
    retrbinary ftp i filename = RetrBytes (Some df) ->
    to_datetime (row_date <$> rows df) (row_time <$> rows df) = Some tss ->
    Timestamp t ∈ tss -> 1000 <= year t.

(** A store whose watermark, if it has one, is a timestamp. *)
Definition store_ok (db : gmap string string) : Prop :=
  match db !! "last_timestamp"%string with
  | None => True
  | Some s => exists t, strptime s = Ok t
  end.

(** The six fields [strftime] writes. *)
Definition dt_seconds (t : datetime) : list Z :=
  [year t; month t; day t; hour t; minute t; second t].

(** A matcher that consumes between [lo] and [hi] characters. *)
Definition consumes (m : Re.matcher) (lo hi : nat) : Prop :=
  forall s g r, (g, r) ∈ m s -> s = g ++ r /\ (lo <= length g <= hi)%nat.

(** Whether a name ends in [.txt], in any case: the test of the listing. *)
Definition is_txt (name : string) : bool :=
  endswith (lower name) (list_ascii_of_string ".txt").

(** The modification time the listing gives to an entry with these facts. *)
Definition mtime_of (facts : gmap string string) : option datetime :=
  match facts !! "modify"%string with
  | Some modify =>
      if bool_decide (modify = ""%string) then None
      else match strptime modify with
           | Ok t => Some t
           | Raise _ => None
           end
  | None => None
  end.

(** The number a list of decimal digits writes. *)
Fixpoint decimal (ds : list Z) : Z :=
  match ds with
  | [] => 0
  | d :: r => d * 10 ^ Z.of_nat (length r) + decimal r
  end.

(** The loop state with the calls [c] made before those it records. *)
Definition with_earlier_calls (c : list datetime) (st : loop_state) : loop_state :=
  {| st_db := st_db st;
     st_last_timestamp := st_last_timestamp st;
     st_calls := c ++ st_calls st |}.


(** * Properties *)

(** ** Sequence comparison *)

Module LexFacts.

Import Lex.

Lemma compare_refl a : compare a a = Eq.
Proof.
  induction a as [|x a IH]; simpl; [reflexivity|].
  now rewrite Z.compare_refl.
Qed.

Lemma compare_eq a : forall b, compare a b = Eq -> a = b.
Proof.
  induction a as [|x a IH]; intros [|y b]; simpl; try discriminate; auto.
  destruct (x ?= y) eqn:E; try discriminate.
  apply Z.compare_eq in E. intros H. f_equal; auto.
Qed.

Lemma compare_antisym a : forall b, compare b a = CompOpp (compare a b).
Proof.
  induction a as [|x a IH]; intros [|y b]; simpl; auto.
  rewrite (Z.compare_antisym x y).
  destruct (x ?= y); simpl; auto.
Qed.

Lemma compare_lt_trans a : forall b c,
  compare a b = Lt -> compare b c = Lt -> compare a c = Lt.
Proof.
  induction a as [|x a IH]; intros [|y b] [|z c]; simpl; try discriminate; auto.
  destruct (x ?= y) eqn:Exy; try discriminate;
    destruct (y ?= z) eqn:Eyz; try discriminate; intros H1 H2.
  - apply Z.compare_eq in Exy, Eyz. subst. rewrite Z.compare_refl. eauto.
  - apply Z.compare_eq in Exy. subst. now rewrite Eyz.
  - apply Z.compare_eq in Eyz. subst. now rewrite Exy.
  - rewrite Z.compare_lt_iff in Exy, Eyz.
    assert (E : (x ?= z) = Lt) by (rewrite Z.compare_lt_iff; lia).
    now rewrite E.
Qed.

Lemma ltb_irrefl a : ltb a a = false.
Proof. unfold ltb. now rewrite compare_refl. Qed.

Lemma ltb_trans a b c : ltb a b = true -> ltb b c = true -> ltb a c = true.
Proof.
  unfold ltb. destruct (compare a b) eqn:E1; try discriminate.
  destruct (compare b c) eqn:E2; try discriminate.
  now rewrite (compare_lt_trans _ _ _ E1 E2).
Qed.

Lemma leb_refl a : leb a a = true.
Proof. unfold leb. now rewrite compare_refl. Qed.

Lemma ltb_leb a b : ltb a b = true -> leb a b = true.
Proof. unfold ltb, leb. now destruct (compare a b). Qed.

Lemma leb_total a b : leb a b = true \/ leb b a = true.
Proof.
  unfold leb. rewrite (compare_antisym a b).
  destruct (compare a b); simpl; auto.
Qed.

Lemma leb_ltb_trans a b c : leb a b = true -> ltb b c = true -> ltb a c = true.
Proof.
  unfold leb. destruct (compare a b) eqn:E; try discriminate; intros _ H.
  - apply compare_eq in E. now subst.
  - apply ltb_trans with b; auto. unfold ltb. now rewrite E.
Qed.

Lemma ltb_leb_trans a b c : ltb a b = true -> leb b c = true -> ltb a c = true.
Proof.
  intros H. unfold leb. destruct (compare b c) eqn:E; try discriminate; intros _.
  - apply compare_eq in E. now subst.
  - apply ltb_trans with b; auto. unfold ltb. now rewrite E.
Qed.

Lemma leb_trans a b c : leb a b = true -> leb b c = true -> leb a c = true.
Proof.
  intros H1. unfold leb at 1. destruct (compare b c) eqn:E; try discriminate; intros _.
  - apply compare_eq in E. now subst.
  - apply ltb_leb. apply leb_ltb_trans with b; auto. unfold ltb. now rewrite E.
Qed.

Lemma leb_antisym a b : leb a b = true -> leb b a = true -> a = b.
Proof.
  unfold leb. rewrite (compare_antisym a b).
  destruct (compare a b) eqn:E; simpl; try discriminate; intros _ _.
  now apply compare_eq.
Qed.

Lemma leb_nltb a b : leb a b = negb (ltb b a).
Proof.
  unfold leb, ltb. rewrite (compare_antisym a b).
  now destruct (compare a b).
Qed.

End LexFacts.

(** ** Datetimes *)

Lemma valid_fields_second_precision y mo d h mi s us :
  valid_fields y mo d h mi s us = true -> valid_fields y mo d h mi s 0 = true.
Proof.
  unfold valid_fields. rewrite !andb_true_iff.
  intros H. repeat split; try apply H; reflexivity.
Qed.

Lemma datetime_eq (a b : datetime) : dt_tuple a = dt_tuple b -> a = b.
Proof.
  destruct a as [y1 mo1 d1 h1 mi1 s1 us1 H1], b as [y2 mo2 d2 h2 mi2 s2 us2 H2].
  unfold dt_tuple; simpl. intros E. injection E as -> -> -> -> -> -> ->.
  f_equal. apply UIP_dec, bool_dec.
Qed.

Lemma datetime_new_spec y mo d h mi s us (H : valid_fields y mo d h mi s us = true) :
  datetime_new y mo d h mi s us = Some (mk_datetime y mo d h mi s us H).
Proof.
  unfold datetime_new. destruct (bool_dec _ true) as [H'|N]; [|congruence].
  do 2 f_equal. apply UIP_dec, bool_dec.
Qed.

Lemma datetime_new_fields y mo d h mi s us t :
  datetime_new y mo d h mi s us = Some t ->
  dt_tuple t = [y; mo; d; h; mi; s; us].
Proof.
  unfold datetime_new. destruct (bool_dec _ true) as [H'|N]; [|discriminate].
  intros [= <-]. reflexivity.
Qed.

Lemma datetime_new_None y mo d h mi s us :
  valid_fields y mo d h mi s us = false -> datetime_new y mo d h mi s us = None.
Proof.
  intros V. unfold datetime_new. destruct (bool_dec _ true); congruence.
Qed.

Lemma dt_ltb_irrefl a : dt_ltb a a = false.
Proof. apply LexFacts.ltb_irrefl. Qed.

Lemma dt_leb_refl a : dt_leb a a = true.
Proof. apply LexFacts.leb_refl. Qed.

Lemma dt_ltb_leb a b : dt_ltb a b = true -> dt_leb a b = true.
Proof. apply LexFacts.ltb_leb. Qed.

Lemma dt_leb_trans a b c : dt_leb a b = true -> dt_leb b c = true -> dt_leb a c = true.
Proof. apply LexFacts.leb_trans. Qed.

Lemma dt_leb_ltb_trans a b c : dt_leb a b = true -> dt_ltb b c = true -> dt_ltb a c = true.
Proof. apply LexFacts.leb_ltb_trans. Qed.

Lemma dt_ltb_trans a b c : dt_ltb a b = true -> dt_ltb b c = true -> dt_ltb a c = true.
Proof. apply LexFacts.ltb_trans. Qed.

Lemma dt_leb_total a b : dt_leb a b = true \/ dt_leb b a = true.
Proof. apply LexFacts.leb_total. Qed.

Lemma dt_leb_antisym a b : dt_leb a b = true -> dt_leb b a = true -> a = b.
Proof. intros H1 H2. apply datetime_eq. now apply LexFacts.leb_antisym. Qed.

(** ** [strptime] *)

Example strptime_full :
  exists t, strptime "20240101000100" = Ok t /\ dt_tuple t = [2024; 1; 1; 0; 1; 0; 0].
Proof. eexists. split; vm_compute; reflexivity. Qed.

Example strptime_short :
  exists t, strptime "202411000" = Ok t /\ dt_tuple t = [2024; 1; 1; 0; 0; 0; 0].
Proof. eexists. split; vm_compute; reflexivity. Qed.

Example strptime_leap_second : strptime "20200101000060" = Raise ValueError.
Proof. vm_compute. reflexivity. Qed.

Example strptime_trailing : strptime "20251126094512.5" = Raise ValueError.
Proof. vm_compute. reflexivity. Qed.

Example strptime_garbage : strptime "not-a-timestamp" = Raise ValueError.
Proof. vm_compute. reflexivity. Qed.

(** *** [strptime] inverts [strftime] *)

Lemma first_is_bind {A B} (f : A -> list B) l x y :
  first_is l x -> first_is (f x) y -> first_is (l ≫= f) y.
Proof.
  intros [tl ->] [tl' E]. exists (tl' ++ (tl ≫= f)).
  change ((x :: tl) ≫= f) with (f x ++ (tl ≫= f)). now rewrite E.
Qed.

Lemma first_is_singleton {A} (x : A) : first_is [x] x.
Proof. now exists []. Qed.

Lemma Z_enum (P : Z -> Prop) (k : nat) :
  (forall j : nat, (j < k)%nat -> P (Z.of_nat j)) ->
  forall n, 0 <= n < Z.of_nat k -> P n.
Proof.
  intros H n Hn. rewrite <- (Z2Nat.id n) by lia. apply H. lia.
Qed.

Tactic Notation "enum_cases" integer(k) :=
  let j := fresh "j" in
  let Hj := fresh "Hj" in
  intros j Hj;
  do k (destruct j as [|j];
        [ first [ intros; exfalso; lia
                | intros; vm_compute; eexists; reflexivity
                | intros; vm_compute; reflexivity ] | ]);
  exfalso; lia.

Lemma dig_digit k r : 0 <= k <= 9 -> Re.dig (digit k :: r) = [([digit k], r)].
Proof.
  intros Hk. revert r. pattern k. apply (Z_enum _ 10); [|lia].
  intros j Hj r. do 10 (destruct j as [|j]; [reflexivity|]). exfalso; lia.
Qed.

Lemma int_digits4 a b c e :
  0 <= a <= 9 -> 0 <= b <= 9 -> 0 <= c <= 9 -> 0 <= e <= 9 ->
  Re.int [digit a; digit b; digit c; digit e] = ((a * 10 + b) * 10 + c) * 10 + e.
Proof.
  intros Ha Hb Hc He.
  assert (D : forall k, 0 <= k <= 9 ->
            forall acc, (if (code "0" <=? code (digit k)) && (code (digit k) <=? code "9")
                         then acc * 10 + (code (digit k) - 48) else acc) = acc * 10 + k).
  { intros k Hk. pattern k. apply (Z_enum _ 10); [|lia].
    intros j Hj acc. do 10 (destruct j as [|j]; [vm_compute; reflexivity|]).
    exfalso; lia. }
  unfold Re.int. simpl. rewrite !D by assumption. lia.
Qed.

Lemma seq_dig_digit (b : Re.matcher) k r :
  0 <= k <= 9 ->
  Re.seq Re.dig b (digit k :: r) = (b r ≫= λ '(y, r'), [(digit k :: y, r')]).
Proof.
  intros Hk. unfold Re.seq. rewrite dig_digit by assumption.
  change ([([digit k], r)] ≫= ?f) with (f ([digit k], r) ++ []).
  now rewrite app_nil_r.
Qed.

Lemma Y_zpad4 y r : 0 <= y <= 9999 -> Re.Y (zpad4 y ++ r) = [(zpad4 y, r)].
Proof.
  intros Hy. unfold Re.Y, zpad4.
  assert (0 <= y / 1000 <= 9) by (Z.div_mod_to_equations; lia).
  assert (0 <= y / 100 mod 10 <= 9) by (Z.div_mod_to_equations; lia).
  assert (0 <= y / 10 mod 10 <= 9) by (Z.div_mod_to_equations; lia).
  assert (0 <= y mod 10 <= 9) by (Z.div_mod_to_equations; lia).
  change ([?a; ?b; ?c; ?e] ++ r) with (a :: b :: c :: e :: r).
  rewrite !seq_dig_digit by assumption.
  rewrite dig_digit by assumption. reflexivity.
Qed.

Lemma int_zpad4 y : 0 <= y <= 9999 -> Re.int (zpad4 y) = y.
Proof.
  intros Hy. unfold zpad4.
  rewrite int_digits4 by (Z.div_mod_to_equations; lia).
  Z.div_mod_to_equations; lia.
Qed.

Lemma int_zpad2 n : 0 <= n <= 59 -> Re.int (zpad2 n) = n.
Proof.
  intros Hn. pattern n. apply (Z_enum _ 60); [|lia]. enum_cases 60.
Qed.

Lemma m_zpad2 n : 1 <= n <= 12 -> forall r, first_is (Re.m (zpad2 n ++ r)) (zpad2 n, r).
Proof.
  intros Hn. generalize Hn. pattern n. apply (Z_enum _ 13); [|lia]. enum_cases 13.
Qed.

Lemma d_zpad2 n : 1 <= n <= 31 -> forall r, first_is (Re.d (zpad2 n ++ r)) (zpad2 n, r).
Proof.
  intros Hn. generalize Hn. pattern n. apply (Z_enum _ 32); [|lia]. enum_cases 32.
Qed.

Lemma H_zpad2 n : 0 <= n <= 23 -> forall r, first_is (Re.H (zpad2 n ++ r)) (zpad2 n, r).
Proof.
  intros Hn. generalize Hn. pattern n. apply (Z_enum _ 24); [|lia]. enum_cases 24.
Qed.

Lemma M_zpad2 n : 0 <= n <= 59 -> forall r, first_is (Re.M (zpad2 n ++ r)) (zpad2 n, r).
Proof.
  intros Hn. generalize Hn. pattern n. apply (Z_enum _ 60); [|lia]. enum_cases 60.
Qed.

Lemma S_zpad2 n : 0 <= n <= 59 -> forall r, first_is (Re.S (zpad2 n ++ r)) (zpad2 n, r).
Proof.
  intros Hn. generalize Hn. pattern n. apply (Z_enum _ 60); [|lia]. enum_cases 60.
Qed.

Lemma days_in_month_le y mo : days_in_month y mo <= 31.
Proof.
  unfold days_in_month.
  destruct (mo =? 2); [destruct (is_leap y); lia|].
  destruct ((mo =? 4) || (mo =? 6) || (mo =? 9) || (mo =? 11)); lia.
Qed.

Lemma datetime_bounds (t : datetime) :
  1 <= year t <= 9999 /\ 1 <= month t <= 12 /\ 1 <= day t <= 31 /\
  0 <= hour t <= 23 /\ 0 <= minute t <= 59 /\ 0 <= second t <= 59 /\
  0 <= microsecond t <= 999999.
Proof.
  pose proof (datetime_ok t) as V. unfold valid_fields, MINYEAR, MAXYEAR in V.
  rewrite !andb_true_iff in V. rewrite !Z.leb_le in V.
  pose proof (days_in_month_le (year t) (month t)). lia.
Qed.

Lemma year_text_four_digits y : 1000 <= y -> year_text y = zpad4 y.
Proof.
  intros Hy. unfold year_text.
  destruct (Z.ltb_spec y 10); [lia|].
  destruct (Z.ltb_spec y 100); [lia|].
  destruct (Z.ltb_spec y 1000); [lia|]. reflexivity.
Qed.

Lemma format_regex_strftime (t : datetime) :
  1000 <= year t ->
  first_is (format_regex (list_ascii_of_string (strftime t)))
           ([year t; month t; day t; hour t; minute t; second t], []).
Proof.
  intros Hy4.
  destruct (datetime_bounds t) as (Hy & Hmo & Hd & Hh & Hmi & Hs & _).
  unfold strftime. rewrite year_text_four_digits by assumption.
  rewrite list_ascii_of_string_of_list_ascii.
  unfold format_regex.
  eapply first_is_bind.
  { rewrite Y_zpad4 by lia. apply first_is_singleton. }
  eapply first_is_bind; [apply m_zpad2; lia|].
  eapply first_is_bind; [apply d_zpad2; lia|].
  eapply first_is_bind; [apply H_zpad2; lia|].
  eapply first_is_bind; [apply M_zpad2; lia|].
  eapply first_is_bind.
  { rewrite <- (app_nil_r (zpad2 (second t))). apply S_zpad2; lia. }
  rewrite int_zpad4 by lia. rewrite !int_zpad2 by lia.
  apply first_is_singleton.
Qed.

Lemma replace_microsecond_0_fields (t : datetime) :
  dt_tuple (replace_microsecond_0 t)
  = [year t; month t; day t; hour t; minute t; second t; 0].
Proof.
  unfold replace_microsecond_0.
  now rewrite (datetime_new_spec _ _ _ _ _ _ _
                 (valid_fields_second_precision _ _ _ _ _ _ _ (datetime_ok t))).
Qed.

Lemma strptime_strftime (t : datetime) :
  1000 <= year t ->
  strptime (strftime t) = Ok (replace_microsecond_0 t).
Proof.
  intros Hy4.
  unfold strptime. destruct (format_regex_strftime t Hy4) as [tl ->].
  unfold replace_microsecond_0.
  now rewrite (datetime_new_spec _ _ _ _ _ _ _
                 (valid_fields_second_precision _ _ _ _ _ _ _ (datetime_ok t))).
Qed.

Lemma replace_microsecond_0_id (t : datetime) :
  microsecond t = 0 -> replace_microsecond_0 t = t.
Proof.
  intros H. apply datetime_eq. rewrite replace_microsecond_0_fields.
  unfold dt_tuple. now rewrite H.
Qed.

Lemma strptime_microsecond s t : strptime s = Ok t -> microsecond t = 0.
Proof.
  unfold strptime.
  destruct (format_regex (list_ascii_of_string s)) as [|[g r] tl]; [discriminate|].
  destruct r; [|destruct g as [|? [|? [|? [|? [|? [|? [|? ?]]]]]]]; discriminate].
  destruct g as [|y [|mo [|d [|h [|mi [|sec [|? ?]]]]]]]; try discriminate.
  destruct (datetime_new y mo d h mi sec 0) as [t'|] eqn:E; [|discriminate].
  intros [= <-]. apply datetime_new_fields in E. unfold dt_tuple in E. congruence.
Qed.

(** ** Sorting *)

#[global] Instance key_le_total {A} (key : A -> list Z) : Total (key_le key).
Proof. intros a b. apply LexFacts.leb_total. Qed.

#[global] Instance key_le_trans {A} (key : A -> list Z) : Transitive (key_le key).
Proof. intros a b c. apply LexFacts.leb_trans. Qed.

Lemma sorted_by_Permutation {A} (key : A -> list Z) (l : list A) :
  sorted_by key l ≡ₚ l.
Proof. apply merge_sort_Permutation. Qed.

Lemma sorted_by_StronglySorted {A} (key : A -> list Z) (l : list A) :
  StronglySorted (key_le key) (sorted_by key l).
Proof. apply StronglySorted_merge_sort; apply _. Qed.

Lemma sorted_by_elem_of {A} (key : A -> list Z) (l : list A) x :
  x ∈ sorted_by key l <-> x ∈ l.
Proof. now rewrite sorted_by_Permutation. Qed.

(** ** Selection *)

Lemma select_loop last_timestamp remote_files : forall acc,
  fold_left (fun (acc : list string) '(filename, mtime) =>
      match mtime with
      | None => acc
      | Some mt =>
          match last_timestamp with
          | None => acc ++ [filename]
          | Some lt => if dt_ltb lt mt then acc ++ [filename] else acc
          end
      end) remote_files acc
  = acc ++ (fst <$> filter (selected last_timestamp) remote_files).
Proof.
  induction remote_files as [|[filename mtime] rest IH]; intros acc; simpl.
  - now rewrite app_nil_r.
  - rewrite IH. destruct mtime as [mt|].
    + destruct last_timestamp as [lt|].
      * destruct (dt_ltb lt mt) eqn:E.
        -- rewrite filter_cons_True by (unfold selected; simpl; assumption).
           simpl. now rewrite <- app_assoc.
        -- rewrite filter_cons_False by (unfold selected; simpl; congruence).
           reflexivity.
      * rewrite filter_cons_True by (unfold selected; simpl; exact I).
        simpl. now rewrite <- app_assoc.
    + rewrite filter_cons_False by (unfold selected; simpl; tauto). reflexivity.
Qed.

Lemma select_files_to_process_Permutation remote_files last_timestamp :
  select_files_to_process remote_files last_timestamp
  ≡ₚ fst <$> filter (selected last_timestamp) remote_files.
Proof.
  unfold select_files_to_process. rewrite sorted_by_Permutation.
  now rewrite select_loop.
Qed.

(** C4.  A filename is in the result of [select_files_to_process] exactly
    when one of its descriptors has a modification time and either there is
    no watermark or that time is strictly later than the watermark.  With
    modification times none, [t1], [t2] (where [t1 < t2]) and the watermark
    [t1], the result is the third file alone. *)
Theorem select_files_to_process_iff :
  (forall remote_files last_timestamp filename,
     filename ∈ select_files_to_process remote_files last_timestamp <->
     exists mtime, (filename, Some mtime) ∈ remote_files /\
       (last_timestamp = None \/
        exists lt, last_timestamp = Some lt /\ dt_ltb lt mtime = true)) /\
  (forall n0 n1 n2 t1 t2, dt_ltb t1 t2 = true ->
     select_files_to_process [(n0, None); (n1, Some t1); (n2, Some t2)] (Some t1)
     = [n2]).
Proof.
  split.
  - intros remote_files last_timestamp filename.
    rewrite select_files_to_process_Permutation, list_elem_of_fmap. split.
    + intros ([name [mt|]] & -> & [Hsel Hin]%list_elem_of_filter);
        unfold selected in Hsel; simpl in *; [|tauto].
      exists mt. split; [assumption|].
      destruct last_timestamp as [lt|]; eauto.
    + intros (mt & Hin & Hwm). exists (filename, Some mt). split; [reflexivity|].
      apply list_elem_of_filter. split; [|assumption].
      unfold selected; simpl.
      destruct Hwm as [->|(lt & -> & Hlt)]; auto.
  - intros n0 n1 n2 t1 t2 Hlt. unfold select_files_to_process. simpl.
    rewrite dt_ltb_irrefl, Hlt. reflexivity.
Qed.

Lemma select_files_to_process_iff_witness :
  select_files_to_process
    [("a.txt"%string, None); ("b.txt"%string, Some dt_2024_01_01_000000);
     ("c.txt"%string, Some dt_2024_01_01_000100)]
    (Some dt_2024_01_01_000000)
  = ["c.txt"%string].
Proof.
  apply (proj2 select_files_to_process_iff). reflexivity.
Defined.

(** C5, as amended.  The result of [select_files_to_process] is in ascending
    order of filename, and it holds each filename once for each of its
    selected descriptors: it is a rearrangement of the names of the selected
    descriptors, so it has no duplicate when the listing names no file
    twice. *)
Theorem select_files_to_process_sorted remote_files last_timestamp :
  StronglySorted (fun a b => str_leb a b = true)
    (select_files_to_process remote_files last_timestamp) /\
  select_files_to_process remote_files last_timestamp
    ≡ₚ fst <$> filter (selected last_timestamp) remote_files /\
  (NoDup (fst <$> remote_files) ->
   NoDup (select_files_to_process remote_files last_timestamp)).
Proof.
  split; [|split].
  - apply (sorted_by_StronglySorted str_codes).
  - apply select_files_to_process_Permutation.
  - intros Hnd. rewrite select_files_to_process_Permutation.
    induction remote_files as [|f rest IH]; simpl; [constructor|].
    rewrite fmap_cons in Hnd. apply NoDup_cons in Hnd as [Hf Hrest].
    destruct (decide (selected last_timestamp f)).
    + rewrite filter_cons_True by assumption. rewrite fmap_cons.
      apply NoDup_cons. split; [|auto].
      intros (g & Hg & [_ Hin]%list_elem_of_filter)%list_elem_of_fmap.
      apply Hf. apply list_elem_of_fmap. eauto.
    + rewrite filter_cons_False by assumption. auto.
Qed.

Lemma select_files_to_process_sorted_witness :
  NoDup (select_files_to_process
           [("b.txt"%string, Some dt_2024_01_01_000100);
            ("a.txt"%string, Some dt_2024_01_01_000000)] None).
Proof.
  apply (select_files_to_process_sorted _ None).
  apply (bool_decide_unpack _). vm_compute. exact I.
Defined.

(** C5 as stated fails: a filename listed twice is returned twice. *)
Lemma select_files_to_process_duplicates :
  select_files_to_process
    [("a.txt"%string, Some dt_2024_01_01_000000);
     ("a.txt"%string, Some dt_2024_01_01_000100)] None
  = ["a.txt"%string; "a.txt"%string] /\
  ~ NoDup (select_files_to_process
             [("a.txt"%string, Some dt_2024_01_01_000000);
              ("a.txt"%string, Some dt_2024_01_01_000100)] None).
Proof.
  assert (E : select_files_to_process
    [("a.txt"%string, Some dt_2024_01_01_000000);
     ("a.txt"%string, Some dt_2024_01_01_000100)] None
    = ["a.txt"%string; "a.txt"%string]) by (vm_compute; reflexivity).
  split; [exact E|]. rewrite E. intros H.
  apply NoDup_cons in H as [Hin _]. apply Hin. left.
Qed.

(** ** The watermark store *)

Lemma get_set_last_timestamp db t :
  1000 <= year t ->
  get_last_timestamp (set_last_timestamp db t) = Ok (Some (replace_microsecond_0 t)).
Proof.
  intros Hy4. unfold get_last_timestamp, set_last_timestamp.
  rewrite lookup_insert_eq. now rewrite strptime_strftime.
Qed.

(** C10.  The round trip fails for a year below 1000.  For 0999-01-01
    00:00:00, which has no sub-second part, [set_last_timestamp] stores
    [9990101000000], thirteen characters where its docstring says
    [YYYYMMDDHHMMSS], and [get_last_timestamp] reads that back as 9990-10-10
    00:00:00.  For 0001-01-01 00:00:00 the stored text is [10101000000],
    which [strptime] refuses, so that [get_last_timestamp] raises. *)
Theorem set_get_last_timestamp_year_999 :
  set_last_timestamp ∅ dt_0999_01_01_000000
    = {["last_timestamp"%string := "9990101000000"%string]} /\
  get_last_timestamp (set_last_timestamp ∅ dt_0999_01_01_000000)
    = Ok (Some dt_9990_10_10_000000) /\
  microsecond dt_0999_01_01_000000 = 0 /\
  dt_9990_10_10_000000 <> dt_0999_01_01_000000 /\
  set_last_timestamp ∅ (mk_datetime 1 1 1 0 0 0 0 eq_refl)
    = {["last_timestamp"%string := "10101000000"%string]} /\
  get_last_timestamp (set_last_timestamp ∅ (mk_datetime 1 1 1 0 0 0 0 eq_refl))
    = Raise (NameError "LOGGER").
Proof.
  repeat split; try (vm_compute; reflexivity).
  intros E. apply (f_equal year) in E. discriminate E.
Qed.

(** C6.  With a stored value that [strptime] refuses, [get_last_timestamp]
    does not return: the handler's [LOGGER.warning] raises [NameError],
    because [metadata_table.py] binds no [LOGGER].  A missing key does give
    [None]. *)
Theorem get_last_timestamp_malformed :
  get_last_timestamp (<["last_timestamp"%string := "not-a-timestamp"%string]> ∅)
  = Raise (NameError "LOGGER") /\
  get_last_timestamp ∅ = Ok None.
Proof. split; vm_compute; reflexivity. Qed.

Lemma get_last_timestamp_cases db :
  match db !! "last_timestamp"%string with
  | None => get_last_timestamp db = Ok None
  | Some ts_str =>
      match strptime ts_str with
      | Ok t => get_last_timestamp db = Ok (Some t)
      | Raise _ => get_last_timestamp db = Raise (NameError "LOGGER")
      end
  end.
Proof.
  unfold get_last_timestamp. destruct (db !! "last_timestamp"%string) as [s|]; auto.
  destruct (strptime s); reflexivity.
Qed.

(** ** The remote listing *)

Lemma error_perm_unbound : load_global upload_globals "error_perm" = Raise (NameError "error_perm").
Proof. vm_compute. reflexivity. Qed.

Lemma list_remote_txt_files_with_mtime_raises entries e :
  list_remote_txt_files_with_mtime {| mlsd_entries := entries; mlsd_raises := Some e |}
  = Raise (NameError "error_perm").
Proof.
  unfold list_remote_txt_files_with_mtime. cbn [mlsd_raises].
  now rewrite error_perm_unbound.
Qed.

(** C7.  When the server rejects [MLSD] with a permission error, the handler
    [except error_perm] raises [NameError], as the module never imports
    [error_perm]; the exception leaves [main], whatever the later cycles
    would have been, with the store as it was. *)
Theorem listing_failure_ends_main TZ_OFFSET to_datetime
    (entries : list (string * gmap string string))
    (retr : nat -> string -> retr_outcome)
    (posts : nat -> list (gmap string value) -> post_outcome)
    (later : list cycle_env) (db : gmap string string) :
  main TZ_OFFSET to_datetime
    ({| create_ftp_client :=
          Some {| mlsd := {| mlsd_entries := entries; mlsd_raises := Some error_perm |};
                  retrbinary := retr |};
        post := posts |} :: later) db
  = (db, [], Some (NameError "error_perm")).
Proof.
  unfold main, setup_metadata_table. cbn [cycles]. unfold cycle.
  cbn [create_ftp_client mlsd].
  now rewrite list_remote_txt_files_with_mtime_raises.
Qed.

Example listing_sorted :
  list_remote_txt_files_with_mtime
    {| mlsd_entries :=
         [("b.TXT"%string, {["modify"%string := "20240101000200"%string]});
          ("a.txt"%string, {["modify"%string := "20240101000200"%string]});
          ("c.txt"%string, {["modify"%string := "2024"%string]});
          ("d.csv"%string, {["modify"%string := "20240101000200"%string]})];
       mlsd_raises := None |}
  = Ok [("c.txt"%string, None);
        ("a.txt"%string, Some (mk_datetime 2024 1 1 0 2 0 0 eq_refl));
        ("b.TXT"%string, Some (mk_datetime 2024 1 1 0 2 0 0 eq_refl))].
Proof. vm_compute. reflexivity. Qed.


(** ** Measurement records *)

Lemma clean_no_transform x : clean x None = Ok (cleaned x).
Proof. unfold clean, cleaned. now destruct (PrimFloat.is_nan x). Qed.

Lemma clean_nan x transform : PrimFloat.is_nan x = true -> clean x transform = Ok VNone.
Proof. unfold clean. now intros ->. Qed.

Lemma build_measurement_Ok TZ_OFFSET row ts off pv :
  utcoffset_text TZ_OFFSET = Ok off ->
  clean (row_p row) (Some pressure_transform) = Ok pv ->
  build_measurement TZ_OFFSET row ts =
    Ok (<["ts"%string := VStr (isoformat ts off)]>
       (<["t"%string := cleaned (row_T row)]>
       (<["h"%string := cleaned (row_rH row)]>
       (<["p"%string := pv]>
       (<["p1"%string := cleaned (row_PM1 row)]>
       (<["p25"%string := cleaned (row_PM2_5 row)]>
       (<["p10"%string := cleaned (row_PM10 row)]> ∅))))))).
Proof.
  intros Hoff Hp. unfold build_measurement.
  rewrite Hoff, Hp, !clean_no_transform. reflexivity.
Qed.

Lemma build_measurement_inv TZ_OFFSET row ts m :
  build_measurement TZ_OFFSET row ts = Ok m ->
  exists off pv,
    utcoffset_text TZ_OFFSET = Ok off /\
    clean (row_p row) (Some pressure_transform) = Ok pv /\
    m = <["ts"%string := VStr (isoformat ts off)]>
       (<["t"%string := cleaned (row_T row)]>
       (<["h"%string := cleaned (row_rH row)]>
       (<["p"%string := pv]>
       (<["p1"%string := cleaned (row_PM1 row)]>
       (<["p25"%string := cleaned (row_PM2_5 row)]>
       (<["p10"%string := cleaned (row_PM10 row)]> ∅)))))).
Proof.
  intros Hb.
  destruct (utcoffset_text TZ_OFFSET) as [off|e] eqn:Hoff;
    [|unfold build_measurement in Hb; now rewrite Hoff in Hb].
  destruct (clean (row_p row) (Some pressure_transform)) as [pv|e] eqn:Hp.
  - exists off, pv. rewrite (build_measurement_Ok _ _ _ _ _ Hoff Hp) in Hb.
    injection Hb as <-. auto.
  - unfold build_measurement in Hb.
    rewrite Hoff, Hp, !clean_no_transform in Hb. discriminate.
Qed.

(** C8.  In the dict built for a row, each of the keys [t], [h], [p], [p1],
    [p25], [p10] is present, and it holds [None] when the row's cell is NaN;
    [clean] returns [None] for a NaN whatever the transform is, so the
    transform is not applied to it. *)
Theorem nan_is_explicit_null TZ_OFFSET (row : RawRow) (ts : timestamp)
    (m : gmap string value) :
  build_measurement TZ_OFFSET row ts = Ok m ->
  dom m = {["ts"; "t"; "h"; "p"; "p1"; "p25"; "p10"]}%string /\
  (PrimFloat.is_nan (row_T row) = true -> m !! "t"%string = Some VNone) /\
  (PrimFloat.is_nan (row_rH row) = true -> m !! "h"%string = Some VNone) /\
  (PrimFloat.is_nan (row_p row) = true -> m !! "p"%string = Some VNone) /\
  (PrimFloat.is_nan (row_PM1 row) = true -> m !! "p1"%string = Some VNone) /\
  (PrimFloat.is_nan (row_PM2_5 row) = true -> m !! "p25"%string = Some VNone) /\
  (PrimFloat.is_nan (row_PM10 row) = true -> m !! "p10"%string = Some VNone) /\
  (forall x transform, PrimFloat.is_nan x = true -> clean x transform = Ok VNone).
Proof.
  intros (off & pv & Hoff & Hp & ->)%build_measurement_inv.
  split; [rewrite !dom_insert_L; set_solver|].
  repeat split.
  - intros E. simplify_map_eq. unfold cleaned. now rewrite E.
  - intros E. simplify_map_eq. unfold cleaned. now rewrite E.
  - intros E. simplify_map_eq. rewrite (clean_nan _ _ E) in Hp. congruence.
  - intros E. simplify_map_eq. unfold cleaned. now rewrite E.
  - intros E. simplify_map_eq. unfold cleaned. now rewrite E.
  - intros E. simplify_map_eq. unfold cleaned. now rewrite E.
  - intros x transform. apply clean_nan.
Qed.

Lemma nan_is_explicit_null_witness :
  exists m, build_measurement 4 row_with_nans (Timestamp dt_2024_01_01_000000) = Ok m /\
            m !! "p"%string = Some VNone.
Proof.
  eexists. split.
  - eapply (build_measurement_Ok 4 row_with_nans); reflexivity.
  - eapply (nan_is_explicit_null 4 row_with_nans (Timestamp dt_2024_01_01_000000)).
    + eapply (build_measurement_Ok 4 row_with_nans); reflexivity.
    + reflexivity.
Defined.

(** *** Pressure *)

Lemma round_half_even_nearest m e :
  if 0 <=? e then round_half_even m e = Z.pos m * 2 ^ e
  else 2 * Z.abs (round_half_even m e * 2 ^ (- e) - Z.pos m) <= 2 ^ (- e).
Proof.
  unfold round_half_even. destruct (0 <=? e) eqn:He; [reflexivity|].
  apply Z.leb_gt in He.
  assert (Hd : 0 < 2 ^ (- e)) by (apply Z.pow_pos_nonneg; lia).
  set (d := 2 ^ (- e)) in *.
  pose proof (Z.div_mod (Z.pos m) d ltac:(lia)) as Hdm.
  pose proof (Z.mod_pos_bound (Z.pos m) d Hd) as Hr.
  set (q := Z.pos m / d) in *. set (r := Z.pos m mod d) in *.
  assert (Hq : forall k, k * d - Z.pos m = (k - q) * d - r) by (intros k; lia).
  destruct (2 * r ?= d) eqn:C.
  - apply Z.compare_eq in C.
    destruct (Z.even q); rewrite Hq.
    + replace ((q - q) * d - r) with (- r) by lia. lia.
    + replace ((q + 1 - q) * d - r) with (d - r) by lia. lia.
  - rewrite Z.compare_lt_iff in C. rewrite Hq.
    replace ((q - q) * d - r) with (- r) by lia. lia.
  - rewrite Z.compare_gt_iff in C. rewrite Hq.
    replace ((q + 1 - q) * d - r) with (d - r) by lia. lia.
Qed.

Lemma py_round_nearest x :
  is_finite_SF (Prim2SF x) = true ->
  exists n, py_round x = Ok n /\ nearest_integer n (Prim2SF x).
Proof.
  unfold py_round, nearest_integer.
  destruct (Prim2SF x) as [s|s| |s m e]; try discriminate; intros _.
  - now exists 0.
  - eexists. split; [reflexivity|].
    pose proof (round_half_even_nearest m e) as Hn.
    destruct (0 <=? e); destruct s.
    + rewrite Hn. lia.
    + exact Hn.
    + replace (- round_half_even m e * 2 ^ (- e) - - Z.pos m)
        with (- (round_half_even m e * 2 ^ (- e) - Z.pos m)) by lia.
      now rewrite Z.abs_opp.
    + exact Hn.
Qed.

Lemma utcoffset_text_Ok TZ_OFFSET :
  -24 < TZ_OFFSET < 24 -> exists off, utcoffset_text TZ_OFFSET = Ok off.
Proof.
  intros H. unfold utcoffset_text.
  assert (E : (-24 <? TZ_OFFSET) && (TZ_OFFSET <? 24) = true)
    by (apply andb_true_iff; split; apply Z.ltb_lt; lia).
  rewrite E. eauto.
Qed.

(** C9.  For a row whose pressure cell [v] is not NaN and whose product
    [v * 100] is finite, the dict is built and its [p] is an [int] nearest to
    that product; for the cell [10.005] it is [1001]. *)
Theorem pressure_scaling :
  (forall TZ_OFFSET (row : RawRow) (ts : timestamp),
     -24 < TZ_OFFSET < 24 ->
     PrimFloat.is_nan (row_p row) = false ->
     is_finite_SF (Prim2SF (row_p row * 100)%float) = true ->
     exists m n,
       build_measurement TZ_OFFSET row ts = Ok m /\
       m !! "p"%string = Some (VInt n) /\
       nearest_integer n (Prim2SF (row_p row * 100)%float)) /\
  (forall TZ_OFFSET (row : RawRow) (ts : timestamp),
     -24 < TZ_OFFSET < 24 ->
     row_p row = pressure_10_005 ->
     exists m,
       build_measurement TZ_OFFSET row ts = Ok m /\
       m !! "p"%string = Some (VInt 1001)).
Proof.
  split.
  - intros TZ_OFFSET row ts Htz Hnan Hfin.
    destruct (utcoffset_text_Ok _ Htz) as [off Hoff].
    destruct (py_round_nearest _ Hfin) as (n & Hround & Hnear).
    assert (Hp : clean (row_p row) (Some pressure_transform) = Ok (VInt n)).
    { unfold clean, pressure_transform. now rewrite Hnan, Hround. }
    eexists _, n. split; [apply (build_measurement_Ok _ _ _ _ _ Hoff Hp)|].
    split; [|assumption]. now simplify_map_eq.
  - intros TZ_OFFSET row ts Htz Hp10.
    destruct (utcoffset_text_Ok _ Htz) as [off Hoff].
    assert (Hp : clean (row_p row) (Some pressure_transform) = Ok (VInt 1001)).
    { rewrite Hp10. vm_compute. reflexivity. }
    eexists. split; [apply (build_measurement_Ok _ _ _ _ _ Hoff Hp)|].
    now simplify_map_eq.
Qed.

Lemma pressure_scaling_witness :
  (exists m n, build_measurement 4 row_10_005 (Timestamp dt_2024_01_01_000100) = Ok m /\
     m !! "p"%string = Some (VInt n) /\
     2 * Z.abs (n * 2 ^ 43 - 8800491068719105) <= 2 ^ 43) /\
  (exists m, build_measurement 4 row_10_005 (Timestamp dt_2024_01_01_000100) = Ok m /\
     m !! "p"%string = Some (VInt 1001)).
Proof.
  split.
  - apply (proj1 pressure_scaling 4 row_10_005 (Timestamp dt_2024_01_01_000100));
      [lia | vm_compute; reflexivity | vm_compute; reflexivity].
  - apply (proj2 pressure_scaling 4 row_10_005 (Timestamp dt_2024_01_01_000100));
      [lia | reflexivity].
Defined.

(** ** Extraction *)

Example parse_midnight :
  Clock12.parse "01/01/2024 12:01:00 AM" = Some dt_2024_01_01_000100.
Proof. vm_compute. reflexivity. Qed.

Example parse_afternoon :
  exists t, Clock12.parse "11/26/2025  9:45:12 pm" = Some t /\
            dt_tuple t = [2025; 11; 26; 21; 45; 12; 0].
Proof. eexists. split; vm_compute; reflexivity. Qed.

Example parse_refused : Clock12.parse "2024-01-01 00:01:00" = None.
Proof. vm_compute. reflexivity. Qed.

Example to_datetime_missing_cell :
  Clock12.to_datetime (row_date <$> rows df_untimed) (row_time <$> rows df_untimed)
  = Some [Timestamp dt_2024_01_01_000000; NaT].
Proof. vm_compute. reflexivity. Qed.

Lemma last_of_sorted_is_greatest {A} (key : A -> list Z) (l : list A) x :
  StronglySorted (key_le key) l -> last l = Some x ->
  x ∈ l /\ forall y, y ∈ l -> key_le key y x.
Proof.
  intros Hs [l' ->]%last_Some. split; [set_solver|].
  intros y [Hy| ->%list_elem_of_singleton]%elem_of_app.
  - eapply StronglySorted_app_1_elem_of; eauto. set_solver.
  - apply LexFacts.leb_refl.
Qed.

Lemma required_columns_present (df : DataFrame) :
  negb (forallb (fun col => bool_decide (col ∈ columns df)) required) = false <->
  forall col, col ∈ required -> col ∈ columns df.
Proof.
  rewrite negb_false_iff, forallb_forall. split.
  - intros H col Hc. apply (bool_decide_unpack _). apply Is_true_true_2, H.
    now apply list_elem_of_In.
  - intros H col Hc. apply bool_decide_eq_true. apply H. now apply list_elem_of_In.
Qed.

Lemma is_new_newer last_timestamp (r : RawRow * timestamp) :
  is_new last_timestamp r = true <-> newer last_timestamp (snd r).
Proof.
  unfold is_new, newer. destruct last_timestamp as [w|]; [|tauto].
  destruct (snd r); [tauto|]. split; [discriminate|tauto].
Qed.

Lemma filter_is_new last_timestamp (l : list (RawRow * timestamp)) :
  filter (fun r => is_new last_timestamp r = true) l
  = filter (fun r => newer last_timestamp (snd r)) l.
Proof. apply list_filter_iff. intros r. apply is_new_newer. Qed.

Lemma ts_key_le (a b : RawRow * timestamp) :
  key_le ts_key a b <-> ts_le (snd a) (snd b).
Proof.
  unfold key_le, ts_key, ts_le.
  destruct (snd a) as [x|], (snd b) as [y|].
  - unfold dt_leb, Lex.leb. cbn [Lex.compare]. now rewrite Z.compare_refl.
  - split; [tauto|]. intros _. reflexivity.
  - split; [discriminate|tauto].
  - split; [tauto|]. intros _. reflexivity.
Qed.





(** The outcomes of [process_raw_file] on a frame that has rows and the
    required columns, when the timestamp column is built. *)
Lemma process_raw_file_parsed TZ_OFFSET to_datetime df last_timestamp tss :
  df_empty df = false ->
  (forall col, col ∈ required -> col ∈ columns df) ->
  to_datetime (row_date <$> rows df) (row_time <$> rows df) = Some tss ->
  let surviving :=
    filter (fun r => newer last_timestamp (snd r)) (zip (rows df) tss) in
  process_raw_file TZ_OFFSET to_datetime (RetrBytes (Some df)) last_timestamp =
    match last (sorted_by ts_key surviving) with
    | None => Ok None
    | Some (_, newest_timestamp) =>
        match build_measurements TZ_OFFSET (sorted_by ts_key surviving) with
        | Raise e => Raise e
        | Ok measurements => Ok (Some (measurements, newest_timestamp))
        end
    end.
Proof.
  intros Hne Hcols Hts surviving. unfold process_raw_file.
  rewrite Hne. apply required_columns_present in Hcols. rewrite Hcols, Hts.
  rewrite filter_is_new. fold surviving.
  destruct surviving as [|r rest] eqn:E; reflexivity.
Qed.



(** A file with a missing time cell, read without a watermark: both rows
    give a record, the one without a time last and with [NaT] as its [ts],
    and [NaT] is returned as the newest timestamp. *)
Example process_raw_file_missing_cell :
  exists m1 m2,
    process_raw_file 4 Clock12.to_datetime (RetrBytes (Some df_untimed)) None
      = Ok (Some ([m1; m2], NaT)) /\
    m1 !! "ts"%string = Some (VStr "2024-01-01T00:00:00+04:00") /\
    m2 !! "ts"%string = Some (VStr "NaT").
Proof. do 2 eexists. split; [vm_compute; reflexivity|]. split; reflexivity. Qed.

(** With a watermark the row without a time is dropped. *)
Example process_raw_file_missing_cell_dropped :
  process_raw_file 4 Clock12.to_datetime (RetrBytes (Some df_untimed))
    (Some dt_2024_01_01_000030) = Ok None.
Proof. vm_compute. reflexivity. Qed.

(** The timestamp [process_raw_file] returns is new for the watermark it was
    given. *)
Lemma process_raw_file_newest TZ_OFFSET to_datetime fetched last_timestamp
    measurements newest_timestamp :
  process_raw_file TZ_OFFSET to_datetime fetched last_timestamp
    = Ok (Some (measurements, newest_timestamp)) ->
  newer last_timestamp newest_timestamp.
Proof.
  unfold process_raw_file.
  destruct fetched as [e|[df|]]; [destruct (FTP_ERRORS e); discriminate| |discriminate].
  destruct (df_empty df); [discriminate|].
  destruct (negb _); [discriminate|].
  destruct (to_datetime _ _) as [tss|]; [|discriminate].
  set (stamped := filter _ _).
  destruct stamped as [|r0 rest] eqn:E; [discriminate|]. rewrite <- E.
  destruct (last (sorted_by ts_key stamped)) as [[row newest]|] eqn:Hlast; [|discriminate].
  destruct (build_measurements _ _); [|discriminate].
  intros [= _ <-].
  apply last_Some_elem_of in Hlast. rewrite sorted_by_elem_of in Hlast.
  apply list_elem_of_filter in Hlast as [Hnew _].
  now apply is_new_newer in Hnew.
Qed.

(** ** The polling loop *)

Section Loop.

Variable TZ_OFFSET : Z.
Variable to_datetime : list (option string) -> list (option string) -> option (list timestamp).

Lemma process_file_cases ftp env i st filename :
  match process_raw_file TZ_OFFSET to_datetime (retrbinary ftp i filename)
                         (st_last_timestamp st) with
  | Ok (Some (measurements, Timestamp newest_timestamp)) =>
      match send_measurements_through_api (post env i measurements) with
      | Ok true =>
          process_file TZ_OFFSET to_datetime ftp env i st filename =
            ({| st_db := set_last_timestamp (st_db st) newest_timestamp;
                st_last_timestamp := Some newest_timestamp;
                st_calls := st_calls st ++ [newest_timestamp] |}, None)
      | _ => fst (process_file TZ_OFFSET to_datetime ftp env i st filename) = st
      end
  | _ => fst (process_file TZ_OFFSET to_datetime ftp env i st filename) = st
  end.
Proof.
  unfold process_file.
  destruct (process_raw_file _ _ _ _) as [[[ms [newest|]]|]|e]; try reflexivity;
    destruct (send_measurements_through_api _) as [[|]|e]; reflexivity.
Qed.

(** C2.  For a file whose batch [send_measurements_through_api] reports as
    failed, the loop body leaves its state as it was: no call of
    [set_last_timestamp], the same [last_timestamp], the same store.  The
    body calls [set_last_timestamp] only for a batch reported as delivered,
    once, with the newest timestamp of that file, which also becomes
    [last_timestamp]. *)
Theorem delivery_failure_withholds_watermark
    (ftp : FTP) (env : cycle_env) (i : nat) (st : loop_state) (filename : string) :
  let st' := fst (process_file TZ_OFFSET to_datetime ftp env i st filename) in
  (forall measurements newest_timestamp,
     process_raw_file TZ_OFFSET to_datetime (retrbinary ftp i filename)
       (st_last_timestamp st) = Ok (Some (measurements, newest_timestamp)) ->
     send_measurements_through_api (post env i measurements) = Ok false ->
     st' = st /\ get_last_timestamp (st_db st') = get_last_timestamp (st_db st)) /\
  (st_calls st' <> st_calls st ->
   exists measurements newest_timestamp,
     process_raw_file TZ_OFFSET to_datetime (retrbinary ftp i filename)
       (st_last_timestamp st)
       = Ok (Some (measurements, Timestamp newest_timestamp)) /\
     send_measurements_through_api (post env i measurements) = Ok true /\
     st_calls st' = st_calls st ++ [newest_timestamp] /\
     st_last_timestamp st' = Some newest_timestamp /\
     st_db st' = set_last_timestamp (st_db st) newest_timestamp).
Proof.
  intros st'. subst st'.
  pose proof (process_file_cases ftp env i st filename) as Hc.
  split.
  - intros ms newest Hp Hs. rewrite Hp in Hc.
    destruct newest; [rewrite Hs in Hc|]; now rewrite Hc.
  - intros Hne.
    destruct (process_raw_file _ _ _ _) as [[[ms [newest|]]|]|e] eqn:Hp;
      try (rewrite Hc in Hne; congruence).
    destruct (send_measurements_through_api _) as [[|]|e] eqn:Hs;
      try (rewrite Hc in Hne; congruence).
    exists ms, newest. rewrite Hc. simpl. auto.
Qed.

End Loop.

Lemma delivery_failure_withholds_watermark_witness :
  fst (process_file 4 Clock12.to_datetime ftp_A env_rejecting 0 st_000030 "A.txt")
  = st_000030.
Proof.
  eapply (proj1 (delivery_failure_withholds_watermark 4 Clock12.to_datetime
                   ftp_A env_rejecting 0%nat st_000030 "A.txt")).
  - vm_compute. reflexivity.
  - reflexivity.
Defined.

(** C1.  The persisted watermark goes back in a run.  One cycle, no watermark
    at its start, the files [A.txt] with a row of 0999-01-01 and [B.txt] with
    a row of 1500-01-01, every batch accepted: [set_last_timestamp] is
    called with the first timestamp, then with the second, and nothing is
    raised.  The key holds [9990101000000], then [15000101000000]: the
    second text sorts before the first, and [get_last_timestamp] reads the
    first as 9990-10-10 and the second as 1500-01-01, which is earlier. *)
Theorem watermark_goes_back :
  let r := main 4 Clock12.to_datetime [env_years] ∅ in
  r = ({["last_timestamp"%string := "15000101000000"%string]},
       [dt_0999_01_01_000000; dt_1500_01_01_000000], None) /\
  stored_values ∅ (snd (fst r))
    = ["9990101000000"%string; "15000101000000"%string] /\
  str_leb "9990101000000" "15000101000000" = false /\
  get_last_timestamp (set_last_timestamp ∅ dt_0999_01_01_000000)
    = Ok (Some dt_9990_10_10_000000) /\
  get_last_timestamp (set_last_timestamp ∅ dt_1500_01_01_000000)
    = Ok (Some dt_1500_01_01_000000) /\
  dt_ltb dt_1500_01_01_000000 dt_9990_10_10_000000 = true /\
  ~ StronglySorted watermark_le (stored_values ∅ (snd (fst r))).
Proof.
  assert (E : main 4 Clock12.to_datetime [env_years] ∅
            = ({["last_timestamp"%string := "15000101000000"%string]},
               [dt_0999_01_01_000000; dt_1500_01_01_000000], None))
    by (vm_compute; reflexivity).
  cbv zeta. rewrite E. cbn [fst snd].
  assert (V : stored_values ∅ [dt_0999_01_01_000000; dt_1500_01_01_000000]
            = ["9990101000000"%string; "15000101000000"%string])
    by (vm_compute; reflexivity).
  rewrite V. repeat split; try (vm_compute; reflexivity).
  intros Hs. apply StronglySorted_inv in Hs as [_ Hall].
  apply Forall_inv in Hall. destruct Hall as (ta & tb & Ha & Hb & Hle).
  assert (Ha' : strptime "9990101000000" = Ok dt_9990_10_10_000000)
    by (vm_compute; reflexivity).
  assert (Hb' : strptime "15000101000000" = Ok dt_1500_01_01_000000)
    by (vm_compute; reflexivity).
  rewrite Ha' in Ha. rewrite Hb' in Hb.
  injection Ha as <-. injection Hb as <-. vm_compute in Hle. discriminate Hle.
Qed.

(** ** The scenarios of the specification *)

(** No watermark: both rows are delivered and the watermark becomes
    2024-01-01 00:01:00. *)
Example scenario_unset_watermark :
  main 4 Clock12.to_datetime [env_accepting_exactly 2] ∅
  = ({["last_timestamp"%string := "20240101000100"%string]},
     [dt_2024_01_01_000100], None).
Proof. vm_compute. reflexivity. Qed.

(** Watermark 00:00:30: the row of 00:01:00 alone is delivered and the
    watermark moves to it. *)
Example scenario_watermark_between :
  main 4 Clock12.to_datetime [env_accepting_exactly 1] db_000030
  = ({["last_timestamp"%string := "20240101000100"%string]},
     [dt_2024_01_01_000100], None).
Proof. vm_compute. reflexivity. Qed.

(** A rejected batch: the store keeps the value it had, cycle after cycle. *)
Example scenario_rejected :
  main 4 Clock12.to_datetime [env_rejecting; env_rejecting] db_000030
  = (db_000030, [], None).
Proof. vm_compute. reflexivity. Qed.

(** A second cycle over the same file finds nothing new: the file's
    modification time is still later than the watermark, but no row is. *)
Example scenario_second_cycle :
  main 4 Clock12.to_datetime [env_accepting; env_accepting] ∅
  = ({["last_timestamp"%string := "20240101000100"%string]},
     [dt_2024_01_01_000100], None).
Proof. vm_compute. reflexivity. Qed.

(** A stored value that is no timestamp ends the process in its first
    cycle. *)
Example scenario_malformed_store :
  main 4 Clock12.to_datetime [env_accepting; env_accepting]
    {["last_timestamp"%string := "yesterday"%string]}
  = ({["last_timestamp"%string := "yesterday"%string]}, [], Some (NameError "LOGGER")).
Proof. vm_compute. reflexivity. Qed.

(** A file with a missing time cell, no watermark, the batch accepted:
    [set_last_timestamp] is called with [NaT] and its [strftime] raises
    [ValueError], which ends the process with nothing stored. *)
Example scenario_missing_cell :
  main 4 Clock12.to_datetime
    [{| create_ftp_client :=
          Some {| mlsd := mlsd ftp_A;
                  retrbinary := fun _ _ => RetrBytes (Some df_untimed) |};
        post := fun _ _ => PostResponse 200 |}; env_accepting] ∅
  = (∅, [], Some ValueError).
Proof. vm_compute. reflexivity. Qed.

(** A watermark of the year 1 is stored as a text that is not read back: the
    second cycle ends the process. *)
Example scenario_year_1 :
  main 4 Clock12.to_datetime
    [{| create_ftp_client :=
          Some {| mlsd := mlsd ftp_A;
                  retrbinary := fun _ _ =>
                    RetrBytes (Some {| columns := required;
                                       rows := [row_of_year "01/01/0001"] |}) |};
        post := fun _ _ => PostResponse 200 |}; env_accepting] ∅
  = ({["last_timestamp"%string := "10101000000"%string]},
     [mk_datetime 1 1 1 0 0 0 0 eq_refl], Some (NameError "LOGGER")).
Proof. vm_compute. reflexivity. Qed.

(** * Further properties *)

(** ** utils.py *)

Example extract_year_month_plain :
  Utils.extract_year_month "DUSTMONITOR_6183_2025_11.txt" = Some (2025, 11).
Proof. vm_compute. reflexivity. Qed.

Example extract_year_month_any_case :
  Utils.extract_year_month "/data/fidas/dustmonitor_6183_2025_11.TXT" = Some (2025, 11).
Proof. vm_compute. reflexivity. Qed.

Example extract_year_month_other_name :
  Utils.extract_year_month "DUSTMONITOR_6183_2025_11.csv" = None.
Proof. vm_compute. reflexivity. Qed.

Example extract_year_month_short_year :
  Utils.extract_year_month "DUSTMONITOR_6183_25_11.txt" = None.
Proof. vm_compute. reflexivity. Qed.

Lemma code_digit k : 0 <= k <= 9 -> code (digit k) = 48 + k.
Proof.
  intros Hk. pattern k. apply (Z_enum _ 10); [|lia].
  intros j Hj. do 10 (destruct j as [|j]; [reflexivity|]). exfalso; lia.
Qed.

Lemma int_snoc_digit (s : list ascii) k :
  0 <= k <= 9 -> Re.int (s ++ [digit k]) = Re.int s * 10 + k.
Proof.
  intros Hk. unfold Re.int. rewrite fold_left_app. simpl.
  rewrite (code_digit k Hk).
  replace (code "0") with 48 by reflexivity. replace (code "9") with 57 by reflexivity.
  destruct ((48 <=? 48 + k) && (48 + k <=? 57)) eqn:E; [lia|].
  apply andb_false_iff in E as [E|E]; apply Z.leb_gt in E; lia.
Qed.

Lemma int_digits2 a b :
  0 <= a <= 9 -> 0 <= b <= 9 -> Re.int [digit a; digit b] = a * 10 + b.
Proof.
  intros Ha Hb.
  change [digit a; digit b] with (([] ++ [digit a]) ++ [digit b]).
  rewrite !int_snoc_digit by assumption. reflexivity.
Qed.

Lemma dig_inv s g r :
  (g, r) ∈ Re.dig s -> exists k, 0 <= k <= 9 /\ g = [digit k] /\ s = digit k :: r.
Proof.
  unfold Re.dig, Re.cls. destruct s as [|c s]; [set_solver|].
  replace (code "0") with 48 by reflexivity. replace (code "9") with 57 by reflexivity.
  destruct ((48 <=? code c) && (code c <=? 57)) eqn:E; [|set_solver].
  apply andb_true_iff in E as [E1 E2]. apply Z.leb_le in E1, E2.
  intros [= -> ->]%list_elem_of_singleton.
  assert (Hc : c = digit (code c - 48)).
  { unfold digit, code in *. replace (48 + (Z.of_N (N_of_ascii c) - 48))
      with (Z.of_N (N_of_ascii c)) by lia.
    now rewrite N2Z.id, ascii_N_embedding. }
  exists (code c - 48). rewrite <- Hc. repeat split; lia.
Qed.

Lemma seq_inv (a b : Re.matcher) s g r :
  (g, r) ∈ Re.seq a b s ->
  exists x r1 y, (x, r1) ∈ a s /\ (y, r) ∈ b r1 /\ g = x ++ y.
Proof.
  unfold Re.seq. intros ([x r1] & Hin & Ha)%list_elem_of_bind.
  apply list_elem_of_bind in Hin as ([y r'] & Hin & Hb).
  apply list_elem_of_singleton in Hin as [= -> ->]. eauto 6.
Qed.

Lemma Y_inv s g r :
  (g, r) ∈ Re.Y s -> 0 <= Re.int g <= 9999.
Proof.
  unfold Re.Y.
  intros (x1 & r1 & y1 & (k1 & Hk1 & -> & _)%dig_inv & H1 & ->)%seq_inv.
  apply seq_inv in H1 as (x2 & r2 & y2 & (k2 & Hk2 & -> & _)%dig_inv & H2 & ->).
  apply seq_inv in H2 as (x3 & r3 & y3 & (k3 & Hk3 & -> & _)%dig_inv & H3 & ->).
  apply dig_inv in H3 as (k4 & Hk4 & -> & _).
  change ([digit k1] ++ [digit k2] ++ [digit k3] ++ [digit k4])
    with [digit k1; digit k2; digit k3; digit k4].
  rewrite int_digits4 by assumption. lia.
Qed.

Lemma two_digits_inv s g r :
  (g, r) ∈ Re.seq Re.dig Re.dig s -> 0 <= Re.int g <= 99.
Proof.
  intros (x1 & r1 & y1 & (k1 & Hk1 & -> & _)%dig_inv & H1 & ->)%seq_inv.
  apply dig_inv in H1 as (k2 & Hk2 & -> & _).
  change ([digit k1] ++ [digit k2]) with [digit k1; digit k2].
  rewrite int_digits2 by assumption. lia.
Qed.

Lemma FILENAME_RE_groups s g1 g2 :
  (g1, g2) ∈ Utils.FILENAME_RE s -> 0 <= Re.int g1 <= 9999 /\ 0 <= Re.int g2 <= 99.
Proof.
  unfold Utils.FILENAME_RE.
  intros ([x1 r1] & H & _)%list_elem_of_bind.
  apply list_elem_of_bind in H as ([x2 r2] & H & _).
  apply list_elem_of_bind in H as ([x3 r3] & H & _).
  apply list_elem_of_bind in H as ([x4 r4] & H & HY).
  apply list_elem_of_bind in H as ([x5 r5] & H & _).
  apply list_elem_of_bind in H as ([x6 r6] & H & Hm).
  apply list_elem_of_bind in H as ([x7 r7] & H & _).
  apply list_elem_of_bind in H as ([x8 r8] & H & _).
  apply list_elem_of_singleton in H as [= -> ->].
  split; [now apply Y_inv in HY | now apply two_digits_inv in Hm].
Qed.

(** X1.  When [extract_year_month] returns a pair, the year is between 0 and
    9999 and the month between 0 and 99: the pattern fixes the number of
    digits and nothing checks that the month is one of the twelve. *)
Theorem extract_year_month_bounds (filename : string) (y m : Z) :
  Utils.extract_year_month filename = Some (y, m) ->
  0 <= y <= 9999 /\ 0 <= m <= 99.
Proof.
  unfold Utils.extract_year_month.
  destruct (Utils.FILENAME_RE _) as [|[g1 g2] tl] eqn:E; [discriminate|].
  intros [= <- <-]. apply (FILENAME_RE_groups (Utils.basename (list_ascii_of_string filename))).
  rewrite E. left.
Qed.

Lemma extract_year_month_bounds_witness :
  Utils.extract_year_month "DUSTMONITOR_7_2024_13.txt" = Some (2024, 13) /\
  (0 <= 2024 <= 9999 /\ 0 <= 13 <= 99).
Proof.
  split; [vm_compute; reflexivity|].
  apply (extract_year_month_bounds "DUSTMONITOR_7_2024_13.txt").
  vm_compute. reflexivity.
Defined.

Lemma basename_no_slash (l : list ascii) : forall acc,
  "/"%char ∉ l ->
  fold_left (fun acc c => if bool_decide (c = "/"%char) then [] else acc ++ [c]) l acc
  = acc ++ l.
Proof.
  induction l as [|c l IH]; intros acc Hl; simpl; [now rewrite app_nil_r|].
  rewrite bool_decide_eq_false_2 by set_solver.
  rewrite IH by set_solver. now rewrite <- app_assoc.
Qed.

Lemma basename_after_slash (dir name : list ascii) :
  "/"%char ∉ name ->
  Utils.basename (dir ++ "/"%char :: name) = name /\ Utils.basename name = name.
Proof.
  intros Hn. unfold Utils.basename. split.
  - rewrite fold_left_app. simpl. now rewrite basename_no_slash.
  - now rewrite basename_no_slash.
Qed.

Lemma digit_not_slash k : 0 <= k <= 9 -> digit k <> "/"%char.
Proof.
  intros Hk E. apply (f_equal code) in E. rewrite code_digit in E by assumption.
  change (code "/") with 47 in E. lia.
Qed.

Lemma digits_not_slash (ks : list Z) :
  Forall (fun k => 0 <= k <= 9) ks -> "/"%char ∉ (digit <$> ks).
Proof.
  intros Hks (k & E & Hk)%list_elem_of_fmap.
  rewrite Forall_forall in Hks. symmetry in E. now apply digit_not_slash in E; auto.
Qed.

Lemma digits_cons c r :
  Utils.digits (c :: r) =
    match Re.dig (c :: r) with
    | [] => []
    | _ :: _ => (Utils.digits r ≫= λ '(x, r'), [(c :: x, r')]) ++ [([c], r)]
    end.
Proof. reflexivity. Qed.

Lemma digits_greedy (ks : list Z) (r : list ascii) :
  ks <> [] -> Forall (fun k => 0 <= k <= 9) ks ->
  first_is (Utils.digits ((digit <$> ks) ++ "_"%char :: r)) (digit <$> ks, "_"%char :: r).
Proof.
  intros Hne Hks. induction Hks as [|k ks Hk Hks IH]; [congruence|].
  rewrite fmap_cons, <- app_comm_cons, digits_cons, dig_digit by assumption.
  destruct ks as [|k' ks'].
  - exists []. reflexivity.
  - destruct (IH ltac:(discriminate)) as [tl Htl].
    rewrite Htl. eexists. reflexivity.
Qed.

(** X2.  A name of the form [DUSTMONITOR_<serial>_<YYYY>_<MM>.txt], alone or
    after a directory, gives back the year and the month written in it,
    whatever the serial number and whether or not the month exists. *)
Theorem extract_year_month_roundtrip (dir : list ascii) (serial : list Z) (y m : Z) :
  serial <> [] -> Forall (fun k => 0 <= k <= 9) serial ->
  0 <= y <= 9999 -> 0 <= m <= 99 ->
  let name := list_ascii_of_string "DUSTMONITOR_" ++ (digit <$> serial) ++
              "_"%char :: zpad4 y ++ "_"%char :: zpad2 m ++ list_ascii_of_string ".txt" in
  Utils.extract_year_month (string_of_list_ascii name) = Some (y, m) /\
  Utils.extract_year_month (string_of_list_ascii (dir ++ "/"%char :: name)) = Some (y, m).
Proof.
  intros Hne Hserial Hy Hm name.
  assert (Hm1 : 0 <= m / 10 <= 9) by (Z.div_mod_to_equations; lia).
  assert (Hm2 : 0 <= m mod 10 <= 9) by (Z.div_mod_to_equations; lia).
  assert (Hslash : "/"%char ∉ name).
  { assert (Hd : forall k, 0 <= k <= 9 -> "/"%char <> digit k).
    { intros k Hk E. symmetry in E. now apply digit_not_slash in E. }
    unfold name.
    apply not_elem_of_app; split; [apply (bool_decide_unpack _); vm_compute; exact I|].
    apply not_elem_of_app; split; [now apply digits_not_slash|].
    apply not_elem_of_cons; split; [discriminate|].
    apply not_elem_of_app; split.
    { unfold zpad4. rewrite !not_elem_of_cons.
      repeat split; try apply not_elem_of_nil; apply Hd; Z.div_mod_to_equations; lia. }
    apply not_elem_of_cons; split; [discriminate|].
    apply not_elem_of_app; split.
    { unfold zpad2. rewrite !not_elem_of_cons.
      repeat split; try apply not_elem_of_nil; now apply Hd. }
    apply (bool_decide_unpack _); vm_compute; exact I. }
  destruct (basename_after_slash dir name Hslash) as [Hb1 Hb2].
  assert (Hre : first_is (Utils.FILENAME_RE name) (zpad4 y, zpad2 m)).
  { unfold Utils.FILENAME_RE, name.
    eapply first_is_bind; [exists []; reflexivity|].
    eapply first_is_bind; [now apply digits_greedy|].
    eapply first_is_bind; [exists []; reflexivity|].
    eapply first_is_bind; [rewrite Y_zpad4 by assumption; apply first_is_singleton|].
    eapply first_is_bind; [exists []; reflexivity|].
    eapply first_is_bind.
    { unfold zpad2. change ([?a; ?b] ++ ?r) with (a :: b :: r).
      rewrite seq_dig_digit, dig_digit by assumption. apply first_is_singleton. }
    eapply first_is_bind; [exists []; reflexivity|].
    eapply first_is_bind; [exists []; reflexivity|].
    apply first_is_singleton. }
  unfold Utils.extract_year_month.
  rewrite !list_ascii_of_string_of_list_ascii, Hb1, Hb2.
  destruct Hre as [tl ->].
  rewrite int_zpad4 by assumption. unfold zpad2. rewrite int_digits2 by assumption.
  split; do 2 f_equal; Z.div_mod_to_equations; lia.
Qed.

Lemma extract_year_month_roundtrip_witness :
  Utils.extract_year_month "DUSTMONITOR_6183_2025_00.txt" = Some (2025, 0) /\
  Utils.extract_year_month "/srv/ftp/DUSTMONITOR_6183_2025_00.txt" = Some (2025, 0).
Proof.
  apply (extract_year_month_roundtrip (list_ascii_of_string "/srv/ftp") [6; 1; 8; 3] 2025 0);
    [discriminate | repeat constructor; lia | lia | lia].
Defined.

(** ** The text form of the watermark *)

Lemma consumes_cls lo hi : consumes (Re.cls lo hi) 1 1.
Proof.
  intros s g r. unfold Re.cls. destruct s as [|c s]; [set_solver|].
  destruct (_ && _); [|set_solver].
  intros [= -> ->]%list_elem_of_singleton. simpl. split; [reflexivity|lia].
Qed.

Lemma consumes_seq a b lo1 hi1 lo2 hi2 :
  consumes a lo1 hi1 -> consumes b lo2 hi2 ->
  consumes (Re.seq a b) (lo1 + lo2) (hi1 + hi2).
Proof.
  intros Ha Hb s g r (x & r1 & y & Hx & Hy & ->)%seq_inv.
  destruct (Ha _ _ _ Hx) as [-> ?]. destruct (Hb _ _ _ Hy) as [-> ?].
  rewrite length_app, <- app_assoc. split; [reflexivity|lia].
Qed.

Lemma consumes_alt a b lo hi :
  consumes a lo hi -> consumes b lo hi -> consumes (Re.alt a b) lo hi.
Proof.
  intros Ha Hb s g r. unfold Re.alt. intros [H|H]%elem_of_app; eauto.
Qed.

Lemma consumes_weaken m lo hi lo' hi' :
  (lo' <= lo)%nat -> (hi <= hi')%nat -> consumes m lo hi -> consumes m lo' hi'.
Proof.
  intros Hlo Hhi Hm s g r H. destruct (Hm _ _ _ H) as [-> ?]. split; [reflexivity|lia].
Qed.

Lemma consumes_one_or_two (m : Re.matcher) :
  m = Re.m \/ m = Re.d \/ m = Re.H \/ m = Re.M \/ m = Re.S -> consumes m 1 2.
Proof.
  assert (C1 : forall lo hi, consumes (Re.cls lo hi) 1 2).
  { intros. eapply consumes_weaken; [| |apply consumes_cls]; lia. }
  assert (C2 : forall a b c e, consumes (Re.seq (Re.cls a b) (Re.cls c e)) 1 2).
  { intros. eapply consumes_weaken;
      [| |apply (consumes_seq _ _ 1 1 1 1); apply consumes_cls]; lia. }
  intros [->|[->|[->|[->| ->]]]];
    unfold Re.m, Re.d, Re.H, Re.M, Re.S, Re.lit, Re.dig;
    repeat apply consumes_alt; auto.
Qed.

Lemma consumes_Y : consumes Re.Y 4 4.
Proof.
  unfold Re.Y, Re.dig.
  apply (consumes_seq _ _ 1 1 3 3); [apply consumes_cls|].
  apply (consumes_seq _ _ 1 1 2 2); [apply consumes_cls|].
  apply (consumes_seq _ _ 1 1 1 1); apply consumes_cls.
Qed.

Lemma format_regex_length s vals rest :
  (vals, rest) ∈ format_regex s ->
  (9 + length rest <= length s <= 14 + length rest)%nat.
Proof.
  unfold format_regex.
  intros ([gY r1] & H & HY)%list_elem_of_bind.
  apply list_elem_of_bind in H as ([gm r2] & H & Hm).
  apply list_elem_of_bind in H as ([gd r3] & H & Hd).
  apply list_elem_of_bind in H as ([gH r4] & H & HH).
  apply list_elem_of_bind in H as ([gM r5] & H & HM).
  apply list_elem_of_bind in H as ([gS r6] & H & HS).
  apply list_elem_of_singleton in H as [= -> ->].
  apply consumes_Y in HY as [-> ?].
  apply (consumes_one_or_two Re.m) in Hm as [-> ?]; [|tauto].
  apply (consumes_one_or_two Re.d) in Hd as [-> ?]; [|tauto].
  apply (consumes_one_or_two Re.H) in HH as [-> ?]; [|tauto].
  apply (consumes_one_or_two Re.M) in HM as [-> ?]; [|tauto].
  apply (consumes_one_or_two Re.S) in HS as [-> ?]; [|tauto].
  rewrite !length_app. lia.
Qed.

Lemma strptime_length s t :
  strptime s = Ok t -> (9 <= String.length s <= 14)%nat.
Proof.
  unfold strptime.
  destruct (format_regex (list_ascii_of_string s)) as [|[vals rest] tl] eqn:E;
    [discriminate|].
  assert (Hin : (vals, rest) ∈ format_regex (list_ascii_of_string s))
    by (rewrite E; left).
  apply format_regex_length in Hin.
  destruct rest; [|destruct vals as [|? [|? [|? [|? [|? [|? [|? ?]]]]]]]; discriminate].
  intros _. simpl in Hin.
  assert (L : length (list_ascii_of_string s) = String.length s).
  { clear. induction s; simpl; auto. }
  lia.
Qed.

Lemma compare_blocks (a : list Z) : forall b a' b',
  length a = length b ->
  Lex.compare (a ++ a') (b ++ b') =
    match Lex.compare a b with
    | Eq => Lex.compare a' b'
    | c => c
    end.
Proof.
  induction a as [|x a IH]; intros [|y b] a' b' Hl; simpl in *; try discriminate.
  - reflexivity.
  - destruct (x ?= y); auto.
Qed.

Lemma decimal_bound ds :
  Forall (fun k => 0 <= k <= 9) ds -> 0 <= decimal ds < 10 ^ Z.of_nat (length ds).
Proof.
  induction 1 as [|d r Hd Hr IH]; simpl decimal; simpl length; [simpl; lia|].
  rewrite Nat2Z.inj_succ, Z.pow_succ_r by lia.
  assert (0 < 10 ^ Z.of_nat (length r)) by (apply Z.pow_pos_nonneg; lia). nia.
Qed.

Lemma compare_digits ds : forall es,
  length ds = length es ->
  Forall (fun k => 0 <= k <= 9) ds -> Forall (fun k => 0 <= k <= 9) es ->
  Lex.compare (code <$> (digit <$> ds)) (code <$> (digit <$> es))
  = (decimal ds ?= decimal es).
Proof.
  induction ds as [|d ds IH]; intros [|e es] Hl Hds Hes; simpl in Hl; try discriminate.
  - reflexivity.
  - apply Forall_cons in Hds as [Hd Hds]. apply Forall_cons in Hes as [He Hes].
    injection Hl as Hl. rewrite !fmap_cons. simpl Lex.compare.
    rewrite !code_digit by assumption. simpl decimal. rewrite <- Hl.
    pose proof (decimal_bound ds Hds) as Bd. pose proof (decimal_bound es Hes) as Be.
    rewrite <- Hl in Be.
    assert (0 < 10 ^ Z.of_nat (length ds)) by (apply Z.pow_pos_nonneg; lia).
    destruct (Z.compare_spec (48 + d) (48 + e)) as [E|E|E].
    + rewrite (IH es Hl Hds Hes). assert (d = e) as -> by lia.
      symmetry. destruct (Z.compare_spec (decimal ds) (decimal es));
        [apply Z.compare_eq_iff|apply Z.compare_lt_iff|apply Z.compare_gt_iff]; lia.
    + symmetry. apply Z.compare_lt_iff. nia.
    + symmetry. apply Z.compare_gt_iff. nia.
Qed.

Lemma compare_zpad2 x y :
  0 <= x <= 99 -> 0 <= y <= 99 ->
  Lex.compare (code <$> zpad2 x) (code <$> zpad2 y) = (x ?= y).
Proof.
  intros Hx Hy.
  change (zpad2 x) with (digit <$> [x / 10; x mod 10]).
  change (zpad2 y) with (digit <$> [y / 10; y mod 10]).
  rewrite compare_digits;
    [|reflexivity|repeat constructor; Z.div_mod_to_equations; lia..].
  simpl decimal. f_equal; Z.div_mod_to_equations; lia.
Qed.

Lemma compare_zpad4 x y :
  0 <= x <= 9999 -> 0 <= y <= 9999 ->
  Lex.compare (code <$> zpad4 x) (code <$> zpad4 y) = (x ?= y).
Proof.
  intros Hx Hy.
  change (zpad4 x) with (digit <$> [x / 1000; x / 100 mod 10; x / 10 mod 10; x mod 10]).
  change (zpad4 y) with (digit <$> [y / 1000; y / 100 mod 10; y / 10 mod 10; y mod 10]).
  rewrite compare_digits;
    [|reflexivity|repeat constructor; Z.div_mod_to_equations; lia..].
  simpl decimal. f_equal; Z.div_mod_to_equations; lia.
Qed.

Lemma compare_strftime (a b : datetime) :
  1000 <= year a -> 1000 <= year b ->
  Lex.compare (str_codes (strftime a)) (str_codes (strftime b))
  = Lex.compare (dt_seconds a) (dt_seconds b).
Proof.
  intros Ha4 Hb4.
  destruct (datetime_bounds a) as (Hy & Hmo & Hd & Hh & Hmi & Hs & _).
  destruct (datetime_bounds b) as (Hy' & Hmo' & Hd' & Hh' & Hmi' & Hs' & _).
  unfold str_codes, strftime, dt_seconds.
  rewrite !year_text_four_digits by assumption.
  rewrite !list_ascii_of_string_of_list_ascii.
  change (map code ?l) with (code <$> l). rewrite !fmap_app.
  rewrite compare_blocks, compare_zpad4 by (reflexivity || lia).
  simpl Lex.compare at 2. destruct (year a ?= year b); try reflexivity.
  rewrite compare_blocks, compare_zpad2 by (reflexivity || lia).
  destruct (month a ?= month b); try reflexivity.
  rewrite compare_blocks, compare_zpad2 by (reflexivity || lia).
  destruct (day a ?= day b); try reflexivity.
  rewrite compare_blocks, compare_zpad2 by (reflexivity || lia).
  destruct (hour a ?= hour b); try reflexivity.
  rewrite compare_blocks, compare_zpad2 by (reflexivity || lia).
  destruct (minute a ?= minute b); try reflexivity.
  rewrite <- (app_nil_r (code <$> zpad2 (second a))),
          <- (app_nil_r (code <$> zpad2 (second b))).
  rewrite compare_blocks, compare_zpad2 by (reflexivity || lia).
  now destruct (second a ?= second b).
Qed.

(** X3.  From the year 1000 on, the texts [set_last_timestamp] stores sort
    as the timestamps do: comparing as strings the values that two calls
    leave under the key is comparing the two timestamps without their
    microseconds, so it is comparing the timestamps themselves when they
    have no sub-second part. *)
Theorem stored_text_order (db1 db2 : gmap string string) (a b : datetime)
    (sa sb : string) :
  1000 <= year a -> 1000 <= year b ->
  set_last_timestamp db1 a !! "last_timestamp"%string = Some sa ->
  set_last_timestamp db2 b !! "last_timestamp"%string = Some sb ->
  str_leb sa sb = dt_leb (replace_microsecond_0 a) (replace_microsecond_0 b) /\
  (microsecond a = 0 -> microsecond b = 0 -> str_leb sa sb = dt_leb a b).
Proof.
  intros Ha4 Hb4. unfold set_last_timestamp. rewrite !lookup_insert_eq.
  intros [= <-] [= <-].
  assert (E : str_leb (strftime a) (strftime b)
              = dt_leb (replace_microsecond_0 a) (replace_microsecond_0 b)).
  { unfold str_leb, dt_leb, Lex.leb.
    rewrite compare_strftime by assumption. rewrite !replace_microsecond_0_fields.
    change [year ?t; month ?t; day ?t; hour ?t; minute ?t; second ?t; 0]
      with (dt_seconds t ++ [0]).
    rewrite compare_blocks by reflexivity.
    now destruct (Lex.compare (dt_seconds a) (dt_seconds b)). }
  split; [exact E|].
  intros Ha Hb. now rewrite E, !replace_microsecond_0_id.
Qed.

Lemma stored_text_order_witness :
  str_leb "20240101000030" "20240101000100"
  = dt_leb dt_2024_01_01_000030 dt_2024_01_01_000100.
Proof.
  refine (proj2 (stored_text_order ∅ ∅ dt_2024_01_01_000030 dt_2024_01_01_000100
                   "20240101000030" "20240101000100" _ _ _ _) _ _);
    first [reflexivity | simpl; lia | vm_compute; reflexivity].
Defined.

(** Below the year 1000 the order is lost: 0999-12-31 is stored as a text
    that sorts after the text of 1000-01-01. *)
Example stored_text_order_year_999 :
  set_last_timestamp ∅ (mk_datetime 999 12 31 0 0 0 0 eq_refl)
    !! "last_timestamp"%string = Some "9991231000000"%string /\
  set_last_timestamp ∅ (mk_datetime 1000 1 1 0 0 0 0 eq_refl)
    !! "last_timestamp"%string = Some "10000101000000"%string /\
  str_leb "9991231000000" "10000101000000" = false.
Proof. repeat split; vm_compute; reflexivity. Qed.

(** X4.  [set_last_timestamp] replaces the watermark and touches nothing
    else: a second call leaves the store as if the first had not been made,
    the other keys keep their values, and what [get_last_timestamp] returns
    does not depend on the other keys. *)
Theorem set_last_timestamp_upsert (db : gmap string string) (a b : datetime)
    (k v : string) :
  set_last_timestamp (set_last_timestamp db a) b = set_last_timestamp db b /\
  (k <> "last_timestamp"%string ->
   set_last_timestamp db a !! k = db !! k /\
   get_last_timestamp (<[k := v]> db) = get_last_timestamp db).
Proof.
  unfold set_last_timestamp, get_last_timestamp. split.
  - apply insert_insert_eq.
  - intros Hk. split.
    + now rewrite lookup_insert_ne.
    + now rewrite lookup_insert_ne.
Qed.

Lemma set_last_timestamp_upsert_witness :
  get_last_timestamp (<["schema"%string := "1"%string]> db_000030)
  = get_last_timestamp db_000030.
Proof.
  apply (set_last_timestamp_upsert db_000030 dt_2024_01_01_000000
           dt_2024_01_01_000000 "schema" "1").
  discriminate.
Defined.

(** ** The remote listing and selection *)

Lemma endswith_spec (s suffix : list ascii) :
  endswith s suffix = true <-> exists stem, s = stem ++ suffix.
Proof.
  unfold endswith. rewrite andb_true_iff, Nat.leb_le, bool_decide_eq_true. split.
  - intros [Hl Hd]. exists (take (length s - length suffix) s).
    rewrite <- (take_drop (length s - length suffix) s) at 1. now f_equal.
  - intros [stem ->]. rewrite length_app. split; [lia|].
    replace (length stem + length suffix - length suffix)%nat with (length stem) by lia.
    now rewrite drop_app_length.
Qed.

Lemma listing_loop entries : forall acc,
  fold_left listing_step entries acc
  = acc ++ ((fun e => (fst e, mtime_of (snd e))) <$>
            filter (fun e => is_txt (fst e) = true) entries).
Proof.
  induction entries as [|[name facts] rest IH]; intros acc.
  - simpl. now rewrite app_nil_r.
  - change (fold_left listing_step ((name, facts) :: rest) acc)
      with (fold_left listing_step rest (listing_step acc (name, facts))).
    rewrite IH. unfold listing_step.
    fold (mtime_of facts). fold (is_txt name).
    destruct (is_txt name) eqn:E; simpl negb; cbv iota.
    + rewrite filter_cons_True by (simpl; assumption).
      rewrite fmap_cons, <- app_assoc. reflexivity.
    + rewrite filter_cons_False by (simpl; congruence). reflexivity.
Qed.

Lemma mtime_of_Some facts mt :
  mtime_of facts = Some mt ->
  exists modify, facts !! "modify"%string = Some modify /\ strptime modify = Ok mt.
Proof.
  unfold mtime_of. destruct (facts !! "modify"%string) as [modify|]; [|discriminate].
  destruct (bool_decide (modify = ""%string)); [discriminate|].
  destruct (strptime modify) as [t|] eqn:E; [|discriminate].
  intros [= <-]. eauto.
Qed.

Lemma list_remote_txt_files_with_mtime_Ok mlsd files :
  list_remote_txt_files_with_mtime mlsd = Ok files ->
  files ≡ₚ (fun e => (fst e, mtime_of (snd e))) <$>
           filter (fun e => is_txt (fst e) = true) (mlsd_entries mlsd).
Proof.
  destruct mlsd as [entries [e|]].
  - now rewrite list_remote_txt_files_with_mtime_raises.
  - unfold list_remote_txt_files_with_mtime. simpl. intros [= <-].
    rewrite sorted_by_Permutation. now rewrite listing_loop.
Qed.

(** X5.  When the listing does not raise, [list_remote_txt_files_with_mtime]
    returns one descriptor for each entry whose name ends in [.txt] in any
    case and none for the others, in ascending order of modification time
    and then name, a missing time counting as the earliest; a descriptor
    carries a time only when the entry's [modify] fact parses to it. *)
Theorem list_remote_txt_files_with_mtime_listing
    (entries : list (string * gmap string string)) :
  exists files,
    list_remote_txt_files_with_mtime {| mlsd_entries := entries; mlsd_raises := None |}
      = Ok files /\
    StronglySorted (fun a b => Lex.leb (listing_key a) (listing_key b) = true) files /\
    (forall name, name ∈ (fst <$> files) <->
       (exists facts, (name, facts) ∈ entries) /\
       exists stem, lower name = stem ++ list_ascii_of_string ".txt") /\
    (forall name mt, (name, Some mt) ∈ files ->
       exists facts modify, (name, facts) ∈ entries /\
         facts !! "modify"%string = Some modify /\ strptime modify = Ok mt).
Proof.
  eexists. split; [reflexivity|].
  split; [apply (sorted_by_StronglySorted listing_key)|].
  split.
  - intros name. rewrite sorted_by_Permutation, listing_loop. simpl.
    rewrite list_elem_of_fmap. split.
    + intros ([n mt] & -> & ([n' facts] & [= -> ->] & [Htxt Hin]%list_elem_of_filter)%list_elem_of_fmap).
      simpl in *. split; [eauto|]. now apply endswith_spec.
    + intros [[facts Hin] Hstem]. exists (name, mtime_of facts). split; [reflexivity|].
      apply list_elem_of_fmap. exists (name, facts). split; [reflexivity|].
      apply list_elem_of_filter. split; [|assumption].
      unfold is_txt. simpl. now apply endswith_spec.
  - intros name mt. rewrite sorted_by_Permutation, listing_loop. simpl.
    intros ([n facts] & [= -> Hmt] & [_ Hin]%list_elem_of_filter)%list_elem_of_fmap.
    simpl in *. symmetry in Hmt. apply mtime_of_Some in Hmt as (modify & ? & ?).
    eauto.
Qed.

Lemma list_remote_txt_files_with_mtime_listing_witness :
  exists files,
    list_remote_txt_files_with_mtime (mlsd ftp_A) = Ok files /\
    (forall name, name ∈ (fst <$> files) -> exists facts, (name, facts) ∈ mlsd_entries (mlsd ftp_A)).
Proof.
  destruct (list_remote_txt_files_with_mtime_listing (mlsd_entries (mlsd ftp_A)))
    as (files & Hlist & _ & Hnames & _).
  exists files. split; [exact Hlist|].
  intros name Hin. now apply (proj1 (Hnames name)) in Hin as [Hfacts _].
Defined.

(** X6.  A file reaches the processing loop only through an entry of the
    listing that has a [modify] fact of 9 to 14 characters which parses to a
    time later than the watermark, and whose name ends in [.txt]: entries
    without the fact, or with a fact in another form such as one with
    fractional seconds, are never selected. *)
Theorem selected_files_have_modify_fact (mlsd : mlsd_outcome)
    (files : list (string * option datetime)) (last_timestamp : option datetime)
    (name : string) :
  list_remote_txt_files_with_mtime mlsd = Ok files ->
  name ∈ select_files_to_process files last_timestamp ->
  exists facts modify mt,
    (name, facts) ∈ mlsd_entries mlsd /\
    facts !! "modify"%string = Some modify /\
    strptime modify = Ok mt /\
    (9 <= String.length modify <= 14)%nat /\
    match last_timestamp with
    | None => True
    | Some lt => dt_ltb lt mt = true
    end /\
    exists stem, lower name = stem ++ list_ascii_of_string ".txt".
Proof.
  intros Hlist%list_remote_txt_files_with_mtime_Ok.
  rewrite select_files_to_process_Permutation.
  intros ([n [mt|]] & -> & [Hsel Hin]%list_elem_of_filter)%list_elem_of_fmap;
    unfold selected in Hsel; simpl in Hsel; [|tauto].
  rewrite Hlist in Hin.
  apply list_elem_of_fmap in Hin
    as ([n' facts] & [= -> Hmt] & [Htxt Hin]%list_elem_of_filter).
  simpl in *. symmetry in Hmt. apply mtime_of_Some in Hmt as (modify & Hfact & Hparse).
  exists facts, modify, mt. repeat split; try assumption.
  - apply strptime_length in Hparse. lia.
  - apply strptime_length in Hparse. lia.
  - now apply endswith_spec.
Qed.

Lemma selected_files_have_modify_fact_witness :
  exists facts modify mt,
    ("A.txt"%string, facts) ∈ mlsd_entries (mlsd ftp_A) /\
    facts !! "modify"%string = Some modify /\
    strptime modify = Ok mt /\
    (9 <= String.length modify <= 14)%nat /\
    dt_ltb dt_2024_01_01_000030 mt = true /\
    exists stem, lower "A.txt" = stem ++ list_ascii_of_string ".txt".
Proof.
  apply (selected_files_have_modify_fact (mlsd ftp_A)
           [("A.txt"%string, Some (mk_datetime 2024 1 1 0 2 0 0 eq_refl))]
           (Some dt_2024_01_01_000030) "A.txt").
  - vm_compute. reflexivity.
  - apply (bool_decide_unpack _). vm_compute. exact I.
Defined.

(** X7.  A later watermark never selects more: a file selected with a
    watermark is selected with any earlier one, and with none. *)
Theorem select_files_to_process_antitone
    (remote_files : list (string * option datetime)) (w1 w2 : datetime)
    (name : string) :
  dt_leb w1 w2 = true ->
  name ∈ select_files_to_process remote_files (Some w2) ->
  name ∈ select_files_to_process remote_files (Some w1) /\
  name ∈ select_files_to_process remote_files None.
Proof.
  intros Hle. rewrite !select_files_to_process_Permutation, !list_elem_of_fmap.
  intros ([n [mt|]] & -> & [Hsel Hin]%list_elem_of_filter);
    unfold selected in Hsel; simpl in Hsel; [|tauto].
  split; exists (n, Some mt); (split; [reflexivity|]);
    apply list_elem_of_filter; (split; [|assumption]); unfold selected; simpl; auto.
  now apply dt_leb_ltb_trans with w2.
Qed.

Lemma select_files_to_process_antitone_witness :
  "c.txt"%string ∈ select_files_to_process
    [("b.txt"%string, Some dt_2024_01_01_000030);
     ("c.txt"%string, Some dt_2024_01_01_000100)] (Some dt_2024_01_01_000000) /\
  "c.txt"%string ∈ select_files_to_process
    [("b.txt"%string, Some dt_2024_01_01_000030);
     ("c.txt"%string, Some dt_2024_01_01_000100)] None.
Proof.
  apply (select_files_to_process_antitone _ dt_2024_01_01_000000 dt_2024_01_01_000030).
  - reflexivity.
  - apply (bool_decide_unpack _). vm_compute. exact I.
Defined.

(** ** Delivery *)

#[local] Set Warnings "-clear-no-such-hyp".

(** X8.  [send_measurements_through_api] returns [True] exactly for the
    status codes 200 and 207; it returns [False] for any other status code
    and for a [RequestException]; it raises exactly what [requests.post]
    raises that is not a [RequestException]. *)
Theorem send_measurements_through_api_outcomes (posted : post_outcome) :
  (send_measurements_through_api posted = Ok true <->
     posted = PostResponse 200 \/ posted = PostResponse 207) /\
  (send_measurements_through_api posted = Ok false <->
     posted = PostRaises RequestException \/
     exists status_code, posted = PostResponse status_code /\
                         status_code <> 200 /\ status_code <> 207) /\
  (forall e, send_measurements_through_api posted = Raise e <->
     posted = PostRaises e /\ e <> RequestException).
Proof.
  unfold send_measurements_through_api.
  destruct posted as [e|c].
  - destruct e; naive_solver.
  - destruct (decide (c = 200)) as [->|N200]; [naive_solver|].
    destruct (decide (c = 207)) as [->|N207]; [naive_solver|].
    assert (E : bool_decide (c ∈ [200; 207]) = false).
    { apply bool_decide_eq_false. set_solver. }
    rewrite E. naive_solver.
Qed.

Lemma send_measurements_through_api_outcomes_witness :
  send_measurements_through_api (PostResponse 207) = Ok true /\
  send_measurements_through_api (PostResponse 404) = Ok false.
Proof.
  split.
  - apply (proj1 (send_measurements_through_api_outcomes (PostResponse 207))).
    right. reflexivity.
  - apply (proj1 (proj2 (send_measurements_through_api_outcomes (PostResponse 404)))).
    right. exists 404. repeat split; lia.
Defined.

(** ** Extraction: what is skipped and what raises *)

(** X9.  [process_raw_file] returns [None], raising nothing, when the
    transfer raises one of [FTP_ERRORS], when the bytes do not parse, when
    the frame has no row, when a required column is missing, and when
    building the timestamp column raises; an exception of the transfer that
    is not one of [FTP_ERRORS] is raised as it is.  None of this depends on
    the watermark. *)
Theorem process_raw_file_skips TZ_OFFSET to_datetime (last_timestamp : option datetime) :
  (forall e, FTP_ERRORS e = true ->
     process_raw_file TZ_OFFSET to_datetime (RetrRaises e) last_timestamp = Ok None) /\
  (forall e, FTP_ERRORS e = false ->
     process_raw_file TZ_OFFSET to_datetime (RetrRaises e) last_timestamp = Raise e) /\
  process_raw_file TZ_OFFSET to_datetime (RetrBytes None) last_timestamp = Ok None /\
  (forall df, rows df = [] ->
     process_raw_file TZ_OFFSET to_datetime (RetrBytes (Some df)) last_timestamp = Ok None) /\
  (forall df col, col ∈ required -> col ∉ columns df ->
     process_raw_file TZ_OFFSET to_datetime (RetrBytes (Some df)) last_timestamp = Ok None) /\
  (forall df,
     to_datetime (row_date <$> rows df) (row_time <$> rows df) = None ->
     process_raw_file TZ_OFFSET to_datetime (RetrBytes (Some df)) last_timestamp = Ok None).
Proof.
  repeat split.
  - intros e He. simpl. now rewrite He.
  - intros e He. simpl. now rewrite He.
  - intros df Hrows. unfold process_raw_file, df_empty. rewrite Hrows.
    now destruct (columns df).
  - intros df col Hreq Hcol. unfold process_raw_file.
    destruct (df_empty df); [reflexivity|].
    destruct (negb _) eqn:E; [reflexivity|].
    pose proof (proj1 (required_columns_present df) E) as Hc. exfalso. auto.
  - intros df Hts. unfold process_raw_file.
    destruct (df_empty df); [reflexivity|].
    destruct (negb _); [reflexivity|].
    now rewrite Hts.
Qed.

Lemma process_raw_file_skips_witness :
  process_raw_file 4 Clock12.to_datetime (RetrRaises error_temp) None = Ok None /\
  process_raw_file 4 Clock12.to_datetime (RetrRaises RequestException) None = Ok None /\
  process_raw_file 4 Clock12.to_datetime (RetrRaises ValueError) None = Raise ValueError /\
  process_raw_file 4 Clock12.to_datetime
    (RetrBytes (Some {| columns := ["date"; "time"]%string; rows := [row_midnight] |}))
    None = Ok None /\
  process_raw_file 4 Clock12.to_datetime
    (RetrBytes (Some {| columns := required;
                        rows := [row_midnight;
                                 {| row_date := Some "2024-01-01"%string;
                                    row_time := Some "00:01:00"%string;
                                    row_PM1 := nan; row_PM2_5 := nan; row_PM10 := nan;
                                    row_rH := nan; row_T := nan; row_p := nan |}] |}))
    None = Ok None.
Proof.
  destruct (process_raw_file_skips 4 Clock12.to_datetime None)
    as (H1 & H2 & _ & _ & H5 & H6).
  split; [apply H1; reflexivity|].
  split; [apply H1; reflexivity|].
  split; [apply H2; reflexivity|].
  split.
  - apply (H5 _ "p"%string).
    + apply (bool_decide_unpack _). vm_compute. exact I.
    + apply (bool_decide_unpack _). vm_compute. exact I.
  - apply H6. vm_compute. reflexivity.
Defined.

Lemma filter_none {A} (P : A -> Prop) `{forall x, Decision (P x)} (l : list A) :
  (forall x, x ∈ l -> ~ P x) -> filter P l = [].
Proof.
  intros Hl. destruct (filter P l) as [|x tl] eqn:E; [reflexivity|].
  assert (Hx : x ∈ filter P l) by (rewrite E; left).
  apply list_elem_of_filter in Hx as [HP Hin]. now apply Hl in Hin.
Qed.

Lemma process_raw_file_Some_inv TZ_OFFSET to_datetime df last_timestamp ms newest :
  process_raw_file TZ_OFFSET to_datetime (RetrBytes (Some df)) last_timestamp
    = Ok (Some (ms, newest)) ->
  df_empty df = false /\
  (forall col, col ∈ required -> col ∈ columns df) /\
  exists tss, to_datetime (row_date <$> rows df) (row_time <$> rows df) = Some tss.
Proof.
  unfold process_raw_file.
  destruct (df_empty df); [discriminate|].
  destruct (negb _) eqn:E; [discriminate|].
  pose proof (proj1 (required_columns_present df) E) as Hc.
  destruct (to_datetime _ _) as [tss|]; [|discriminate].
  eauto.
Qed.

(** X10.  Once a file has given records with newest timestamp [T], the same
    file read with the watermark [T] gives nothing new: no row of it is
    later than [T], so a file whose batch was delivered is not sent again
    while it stays the same. *)
Theorem process_raw_file_nothing_new_after TZ_OFFSET to_datetime
    (df : DataFrame) (last_timestamp : option datetime)
    (measurements : list (gmap string value)) (newest_timestamp : datetime) :
  process_raw_file TZ_OFFSET to_datetime (RetrBytes (Some df)) last_timestamp
    = Ok (Some (measurements, Timestamp newest_timestamp)) ->
  process_raw_file TZ_OFFSET to_datetime (RetrBytes (Some df)) (Some newest_timestamp)
    = Ok None.
Proof.
  intros Hp.
  pose proof (process_raw_file_newest _ _ _ _ _ _ Hp) as Hnew.
  destruct (process_raw_file_Some_inv _ _ _ _ _ _ Hp) as (Hne & Hcols & tss & Hts).
  rewrite (process_raw_file_parsed _ _ _ _ _ Hne Hcols Hts) in Hp.
  rewrite (process_raw_file_parsed _ _ _ _ _ Hne Hcols Hts).
  set (surviving := filter (fun r => newer last_timestamp (snd r)) (zip (rows df) tss)) in *.
  pose proof (sorted_by_StronglySorted ts_key surviving) as Hsorted.
  destruct (last (sorted_by ts_key surviving)) as [[row newest]|] eqn:Hlast;
    [|discriminate].
  destruct (build_measurements _ _); [|discriminate]. injection Hp as _ ->.
  destruct (last_of_sorted_is_greatest _ _ _ Hsorted Hlast) as [_ Hmax].
  assert (Hnone : filter (fun r => newer (Some newest_timestamp) (snd r))
                         (zip (rows df) tss) = []).
  { apply filter_none. intros r Hr Hlater.
    unfold newer in Hlater. destruct (snd r) as [t|] eqn:Et; [|contradiction].
    assert (Hsurv : r ∈ surviving).
    { apply list_elem_of_filter. split; [|assumption]. rewrite Et.
      unfold newer in *. destruct last_timestamp as [lt|]; [|exact I].
      now apply dt_ltb_trans with newest_timestamp. }
    rewrite <- (sorted_by_elem_of ts_key) in Hsurv.
    apply Hmax, ts_key_le in Hsurv. cbn [snd] in Hsurv. rewrite Et in Hsurv.
    unfold ts_le, dt_leb in Hsurv.
    unfold dt_ltb in Hlater. rewrite LexFacts.leb_nltb in Hsurv.
    rewrite Hlater in Hsurv. discriminate. }
  rewrite Hnone. reflexivity.
Qed.

Lemma process_raw_file_nothing_new_after_witness :
  process_raw_file 4 Clock12.to_datetime (RetrBytes (Some df_A))
    (Some dt_2024_01_01_000100) = Ok None.
Proof.
  eapply (process_raw_file_nothing_new_after 4 Clock12.to_datetime df_A
            (Some dt_2024_01_01_000030)).
  vm_compute. reflexivity.
Defined.


Lemma clean_pressure_cases (v : float) :
  match Prim2SF (v * 100)%float with
  | S754_infinity _ =>
      PrimFloat.is_nan v = false ->
      clean v (Some pressure_transform) = Raise OverflowError
  | S754_nan =>
      PrimFloat.is_nan v = false ->
      clean v (Some pressure_transform) = Raise ValueError
  | _ => exists pv, clean v (Some pressure_transform) = Ok pv
  end /\
  (PrimFloat.is_nan v = true -> clean v (Some pressure_transform) = Ok VNone).
Proof.
  unfold clean, pressure_transform, py_round. split.
  - destruct (Prim2SF (v * 100)%float); try (intros ->; reflexivity);
      destruct (PrimFloat.is_nan v); eauto.
  - now intros ->.
Qed.



(** ** The polling loop: what a cycle changes *)

Section LoopFacts.

Variable TZ_OFFSET : Z.
Variable to_datetime : list (option string) -> list (option string) -> option (list timestamp).

Lemma process_files_nil ftp env i st :
  process_files TZ_OFFSET to_datetime ftp env i st [] = (st, None).
Proof. reflexivity. Qed.

Lemma process_files_cons ftp env i st filename rest :
  process_files TZ_OFFSET to_datetime ftp env i st (filename :: rest) =
    match process_file TZ_OFFSET to_datetime ftp env i st filename with
    | (st', Some e) => (st', Some e)
    | (st', None) => process_files TZ_OFFSET to_datetime ftp env (S i) st' rest
    end.
Proof. reflexivity. Qed.

Lemma process_file_step ftp env i st filename :
  fst (process_file TZ_OFFSET to_datetime ftp env i st filename) = st \/
  exists newest,
    process_file TZ_OFFSET to_datetime ftp env i st filename =
      ({| st_db := set_last_timestamp (st_db st) newest;
          st_last_timestamp := Some newest;
          st_calls := st_calls st ++ [newest] |}, None) /\
    match st_last_timestamp st with
    | None => True
    | Some lt => dt_ltb lt newest = true
    end.
Proof.
  pose proof (process_file_cases TZ_OFFSET to_datetime ftp env i st filename) as Hc.
  destruct (process_raw_file _ _ _ _) as [[[ms [newest|]]|]|e] eqn:Hp; auto.
  destruct (send_measurements_through_api _) as [[|]|e]; auto.
  right. exists newest. split; [assumption|].
  apply process_raw_file_newest in Hp. unfold newer in Hp.
  now destruct (st_last_timestamp st).
Qed.

(** X12.  Whatever happens to the files of a cycle, the loop only adds to
    what was recorded: the calls of [set_last_timestamp] it makes carry
    strictly increasing timestamps, each later than the watermark the loop
    started with; the store is the one it started with after those calls, in
    order; [last_timestamp] ends as the last of them, or unchanged when there
    is none; and there is at most one call for each file.  This holds also
    when an exception leaves the loop: the calls made before it stay. *)
Theorem process_files_appends (ftp : FTP) (env : cycle_env)
    (files : list string) : forall (i : nat) (st : loop_state),
  let st' := fst (process_files TZ_OFFSET to_datetime ftp env i st files) in
  exists new,
    st_calls st' = st_calls st ++ new /\
    st_db st' = fold_left set_last_timestamp new (st_db st) /\
    st_last_timestamp st' = from_option Some (st_last_timestamp st) (last new) /\
    StronglySorted (fun a b => dt_ltb a b = true) new /\
    (forall lt t, st_last_timestamp st = Some lt -> t ∈ new -> dt_ltb lt t = true) /\
    (length new <= length files)%nat.
Proof.
  induction files as [|filename rest IH]; intros i st.
  - exists []. simpl. rewrite app_nil_r. repeat split; try constructor. set_solver.
  - rewrite process_files_cons.
    destruct (process_file_step ftp env i st filename) as [Hsame|(newest & Hstep & Hnew)].
    + destruct (process_file TZ_OFFSET to_datetime ftp env i st filename) as [st1 [e|]];
        simpl in Hsame; subst st1.
      * exists []. simpl. rewrite app_nil_r. repeat split; try constructor; [set_solver|lia].
      * destruct (IH (S i) st) as (new & H1 & H2 & H3 & H4 & H5 & H6).
        exists new. repeat split; auto. simpl. lia.
    + rewrite Hstep.
      destruct (IH (S i) {| st_db := set_last_timestamp (st_db st) newest;
                            st_last_timestamp := Some newest;
                            st_calls := st_calls st ++ [newest] |})
        as (new & H1 & H2 & H3 & H4 & H5 & H6). simpl in *.
      exists (newest :: new). repeat split.
      * rewrite H1, <- app_assoc. reflexivity.
      * exact H2.
      * rewrite H3. destruct new as [|t new']; [reflexivity|].
        change (last (newest :: t :: new')) with (last (t :: new')).
        destruct (last (t :: new')) eqn:E; [reflexivity|].
        apply last_None in E. discriminate.
      * constructor; [assumption|]. apply Forall_forall. intros t Ht.
        now apply (H5 newest).
      * intros lt t Hlt [->|Ht]%elem_of_cons.
        -- now rewrite Hlt in Hnew.
        -- rewrite Hlt in Hnew. apply dt_ltb_trans with newest; [assumption|].
           now apply (H5 newest).
      * simpl. lia.
Qed.

Lemma process_files_unchanged ftp env files : forall i st,
  (forall j ms, send_measurements_through_api (post env j ms) = Ok false) ->
  fst (process_files TZ_OFFSET to_datetime ftp env i st files) = st.
Proof.
  induction files as [|filename rest IH]; intros i st Hpost; [reflexivity|].
  rewrite process_files_cons.
  pose proof (process_file_cases TZ_OFFSET to_datetime ftp env i st filename) as Hc.
  assert (Hsame : fst (process_file TZ_OFFSET to_datetime ftp env i st filename) = st).
  { destruct (process_raw_file _ _ _ _) as [[[ms [newest|]]|]|e]; auto.
    now rewrite Hpost in Hc. }
  destruct (process_file TZ_OFFSET to_datetime ftp env i st filename) as [st1 [e|]];
    simpl in Hsame; subst st1; [reflexivity|]. now apply IH.
Qed.

(** X13.  A cycle in which the endpoint accepts no batch, answering with
    other status codes or failing with a [RequestException], leaves the
    store and the record of calls as they were, whatever the files hold and
    whether or not an exception ends the cycle. *)
Theorem cycle_all_rejected (env : cycle_env) (db : gmap string string)
    (calls : list datetime) :
  (forall i ms, send_measurements_through_api (post env i ms) = Ok false) ->
  fst (cycle TZ_OFFSET to_datetime env db calls) = (db, calls).
Proof.
  intros Hpost. unfold cycle.
  destruct (create_ftp_client env) as [ftp|]; [|reflexivity].
  destruct (list_remote_txt_files_with_mtime (mlsd ftp)) as [files|e]; [|reflexivity].
  destruct (get_last_timestamp db) as [last|e]; [|reflexivity].
  pose proof (process_files_unchanged ftp env (select_files_to_process files last) 0
                {| st_db := db; st_last_timestamp := last; st_calls := calls |} Hpost) as H.
  destruct (process_files _ _ _ _ _ _ _) as [st e]. simpl in H. now subst st.
Qed.

(** X14.  A cycle has nothing to do, and ends without an exception and
    without touching the store, when no connection is obtained, and when
    no listed file has a modification time later than the watermark: no file
    is then retrieved. *)
Theorem cycle_without_work (env : cycle_env) (db : gmap string string)
    (calls : list datetime) :
  (create_ftp_client env = None ->
   cycle TZ_OFFSET to_datetime env db calls = (db, calls, None)) /\
  (forall ftp files watermark,
     create_ftp_client env = Some ftp ->
     list_remote_txt_files_with_mtime (mlsd ftp) = Ok files ->
     get_last_timestamp db = Ok (Some watermark) ->
     (forall name mt, (name, Some mt) ∈ files -> dt_leb mt watermark = true) ->
     select_files_to_process files (Some watermark) = [] /\
     cycle TZ_OFFSET to_datetime env db calls = (db, calls, None)).
Proof.
  split.
  - intros Hnone. unfold cycle. now rewrite Hnone.
  - intros ftp files watermark Hftp Hlist Hget Hold.
    assert (Hsel : select_files_to_process files (Some watermark) = []).
    { apply Permutation_nil_r. rewrite select_files_to_process_Permutation.
      rewrite (filter_none (selected (Some watermark))); [reflexivity|].
      intros [name [mt|]] Hin Hs; unfold selected in Hs; simpl in Hs; [|assumption].
      apply Hold in Hin. unfold dt_leb in Hin. unfold dt_ltb in Hs.
      rewrite LexFacts.leb_nltb, Hs in Hin. discriminate. }
    split; [assumption|].
    unfold cycle. rewrite Hftp, Hlist, Hget, Hsel. reflexivity.
Qed.

End LoopFacts.

Lemma process_files_appends_witness :
  exists new,
    st_calls (fst (process_files 4 Clock12.to_datetime ftp_A env_accepting 0
                     st_000030 ["A.txt"%string; "A.txt"%string]))
      = [] ++ new /\ (length new <= 2)%nat.
Proof.
  destruct (process_files_appends 4 Clock12.to_datetime ftp_A env_accepting
              ["A.txt"%string; "A.txt"%string] 0%nat st_000030)
    as (new & H1 & _ & _ & _ & _ & H6).
  exists new. split; [exact H1|exact H6].
Defined.

Lemma cycle_all_rejected_witness :
  fst (cycle 4 Clock12.to_datetime env_rejecting db_000030 []) = (db_000030, []).
Proof.
  apply (cycle_all_rejected 4 Clock12.to_datetime env_rejecting db_000030 []).
  intros i ms. reflexivity.
Defined.

Lemma cycle_without_work_witness :
  select_files_to_process
    [("A.txt"%string, Some (mk_datetime 2024 1 1 0 2 0 0 eq_refl))]
    (Some (mk_datetime 2024 1 1 0 2 0 0 eq_refl)) = [] /\
  cycle 4 Clock12.to_datetime env_accepting
    {["last_timestamp"%string := "20240101000200"%string]} []
  = ({["last_timestamp"%string := "20240101000200"%string]}, [], None).
Proof.
  eapply (proj2 (cycle_without_work 4 Clock12.to_datetime env_accepting
                   {["last_timestamp"%string := "20240101000200"%string]} [])
            ftp_A).
  - reflexivity.
  - vm_compute. reflexivity.
  - vm_compute. reflexivity.
  - intros name mt [[= -> <-]|H]%elem_of_cons; [apply dt_leb_refl|set_solver].
Defined.

(** ** The polling loop: the whole run *)

Section RunFacts.

Variable TZ_OFFSET : Z.
Variable to_datetime : list (option string) -> list (option string) -> option (list timestamp).

Lemma process_file_earlier_calls c ftp env i st filename :
  process_file TZ_OFFSET to_datetime ftp env i (with_earlier_calls c st) filename =
    (with_earlier_calls c (fst (process_file TZ_OFFSET to_datetime ftp env i st filename)),
     snd (process_file TZ_OFFSET to_datetime ftp env i st filename)).
Proof.
  unfold process_file. simpl.
  destruct (process_raw_file _ _ _ _) as [[[ms [newest|]]|]|e]; try reflexivity;
    destruct (send_measurements_through_api _) as [[|]|e]; try reflexivity.
  unfold with_earlier_calls. simpl. now rewrite app_assoc.
Qed.

Lemma process_files_earlier_calls c ftp env files : forall i st,
  process_files TZ_OFFSET to_datetime ftp env i (with_earlier_calls c st) files =
    (with_earlier_calls c (fst (process_files TZ_OFFSET to_datetime ftp env i st files)),
     snd (process_files TZ_OFFSET to_datetime ftp env i st files)).
Proof.
  induction files as [|filename rest IH]; intros i st; [reflexivity|].
  simpl. rewrite process_file_earlier_calls.
  destruct (process_file TZ_OFFSET to_datetime ftp env i st filename) as [st1 [e|]];
    simpl; [reflexivity|]. apply IH.
Qed.

Lemma cycle_earlier_calls c env db calls :
  cycle TZ_OFFSET to_datetime env db (c ++ calls) =
    (fst (fst (cycle TZ_OFFSET to_datetime env db calls)),
     c ++ snd (fst (cycle TZ_OFFSET to_datetime env db calls)),
     snd (cycle TZ_OFFSET to_datetime env db calls)).
Proof.
  unfold cycle.
  destruct (create_ftp_client env) as [ftp|]; [|reflexivity].
  destruct (list_remote_txt_files_with_mtime (mlsd ftp)) as [files|e]; [|reflexivity].
  destruct (get_last_timestamp db) as [last|e]; [|reflexivity].
  change {| st_db := db; st_last_timestamp := last; st_calls := c ++ calls |}
    with (with_earlier_calls c
            {| st_db := db; st_last_timestamp := last; st_calls := calls |}).
  rewrite process_files_earlier_calls.
  now destruct (process_files _ _ _ _ _ _ _) as [st e].
Qed.

Lemma cycles_earlier_calls c envs : forall db calls,
  cycles TZ_OFFSET to_datetime envs db (c ++ calls) =
    (fst (fst (cycles TZ_OFFSET to_datetime envs db calls)),
     c ++ snd (fst (cycles TZ_OFFSET to_datetime envs db calls)),
     snd (cycles TZ_OFFSET to_datetime envs db calls)).
Proof.
  induction envs as [|env rest IH]; intros db calls; [reflexivity|].
  simpl. rewrite cycle_earlier_calls.
  destruct (cycle TZ_OFFSET to_datetime env db calls) as [[db' calls'] [e|]];
    simpl; [reflexivity|]. apply IH.
Qed.

Lemma cycles_app envs1 envs2 : forall db calls,
  cycles TZ_OFFSET to_datetime (envs1 ++ envs2) db calls =
    match cycles TZ_OFFSET to_datetime envs1 db calls with
    | (db', calls', None) => cycles TZ_OFFSET to_datetime envs2 db' calls'
    | r => r
    end.
Proof.
  induction envs1 as [|env rest IH]; intros db calls; [reflexivity|].
  simpl. destruct (cycle TZ_OFFSET to_datetime env db calls) as [[db' calls'] [e|]];
    [reflexivity|]. apply IH.
Qed.

(** X15.  Running further cycles is resuming from the store that the earlier
    ones left: the process keeps nothing else from one cycle to the next.
    Once an exception has ended the earlier cycles, the further ones do not
    run. *)
Theorem main_resumes (envs1 envs2 : list cycle_env) (db : gmap string string) :
  main TZ_OFFSET to_datetime (envs1 ++ envs2) db =
    match main TZ_OFFSET to_datetime envs1 db with
    | (db1, calls1, None) =>
        let '(db2, calls2, e) := main TZ_OFFSET to_datetime envs2 db1 in
        (db2, calls1 ++ calls2, e)
    | stopped => stopped
    end.
Proof.
  unfold main, setup_metadata_table. rewrite cycles_app.
  destruct (cycles TZ_OFFSET to_datetime envs1 db []) as [[db1 calls1] [e|]];
    [reflexivity|].
  rewrite <- (app_nil_r calls1) at 1. rewrite cycles_earlier_calls.
  now destruct (cycles TZ_OFFSET to_datetime envs2 db1 []) as [[db2 calls2] e].
Qed.

Lemma build_measurements_Ok (l : list (RawRow * timestamp)) :
  -24 < TZ_OFFSET < 24 ->
  Forall (fun r => row_ok (fst r)) l ->
  exists ms, build_measurements TZ_OFFSET l = Ok ms.
Proof.
  intros Htz. destruct (utcoffset_text_Ok _ Htz) as [off Hoff].
  induction 1 as [|[row ts] l Hrow Hl [ms IH]]; [now exists []|].
  simpl in Hrow.
  assert (exists pv, clean (row_p row) (Some pressure_transform) = Ok pv) as [pv Hp].
  { destruct (clean_pressure_cases (row_p row)) as [Hcases Hnan].
    destruct Hrow as [Hn|Hf]; [eauto|].
    destruct (Prim2SF (row_p row * 100)%float); try discriminate; assumption. }
  simpl. rewrite (build_measurement_Ok _ _ ts _ _ Hoff Hp), IH. eauto.
Qed.

Lemma process_raw_file_returns fetched last_timestamp :
  -24 < TZ_OFFSET < 24 -> retr_ok to_datetime fetched ->
  process_raw_file TZ_OFFSET to_datetime fetched last_timestamp = Ok None \/
  exists ms newest,
    process_raw_file TZ_OFFSET to_datetime fetched last_timestamp
      = Ok (Some (ms, Timestamp newest)) /\ 1000 <= year newest.
Proof.
  intros Htz Hok. unfold process_raw_file.
  destruct fetched as [e|[df|]]; simpl in Hok; [rewrite Hok; auto| |auto].
  destruct Hok as [Hrows Hcol].
  destruct (df_empty df); [auto|].
  destruct (negb _); [auto|].
  destruct (to_datetime _ _) as [tss|]; [|auto].
  specialize (Hcol tss eq_refl).
  set (stamped := filter _ _).
  destruct stamped as [|r0 rest] eqn:E; [auto|]. rewrite <- E.
  destruct (last (sorted_by ts_key stamped)) as [[row newest]|] eqn:Hlast; [|auto].
  destruct (build_measurements_Ok (sorted_by ts_key stamped) Htz) as [ms Hms].
  - apply Forall_forall. intros [row' ts'] Hin.
    rewrite sorted_by_elem_of in Hin. apply list_elem_of_filter in Hin as [_ Hin].
    apply elem_of_zip_l in Hin. rewrite Forall_forall in Hrows. now apply Hrows.
  - rewrite Hms. right.
    apply last_Some_elem_of in Hlast. rewrite sorted_by_elem_of in Hlast.
    apply list_elem_of_filter in Hlast as [_ Hin]. apply elem_of_zip_r in Hin.
    rewrite Forall_forall in Hcol. apply Hcol in Hin.
    destruct newest as [t|]; [|contradiction]. eauto.
Qed.

Lemma store_ok_set db t : 1000 <= year t -> store_ok (set_last_timestamp db t).
Proof.
  intros Hy. unfold store_ok, set_last_timestamp. rewrite lookup_insert_eq.
  eexists. now apply strptime_strftime.
Qed.

Lemma process_file_quiet ftp env i st filename :
  -24 < TZ_OFFSET < 24 ->
  (forall j f, retr_ok to_datetime (retrbinary ftp j f)) ->
  (forall j ms, post_ok (post env j ms)) ->
  store_ok (st_db st) ->
  snd (process_file TZ_OFFSET to_datetime ftp env i st filename) = None /\
  store_ok (st_db (fst (process_file TZ_OFFSET to_datetime ftp env i st filename))).
Proof.
  intros Htz Hretr Hpost Hst. unfold process_file.
  destruct (process_raw_file_returns (retrbinary ftp i filename)
              (st_last_timestamp st) Htz (Hretr i filename))
    as [->|(ms & newest & -> & Hy)]; [auto|].
  specialize (Hpost i ms). unfold send_measurements_through_api.
  destruct (post env i ms) as [e|code]; simpl in Hpost.
  - subst e. auto.
  - destruct (bool_decide _); simpl; auto using store_ok_set.
Qed.

Lemma process_files_quiet ftp env files : forall i st,
  -24 < TZ_OFFSET < 24 ->
  (forall j f, retr_ok to_datetime (retrbinary ftp j f)) ->
  (forall j ms, post_ok (post env j ms)) ->
  store_ok (st_db st) ->
  snd (process_files TZ_OFFSET to_datetime ftp env i st files) = None /\
  store_ok (st_db (fst (process_files TZ_OFFSET to_datetime ftp env i st files))).
Proof.
  induction files as [|filename rest IH]; intros i st Htz Hretr Hpost Hst; [auto|].
  simpl.
  destruct (process_file_quiet ftp env i st filename Htz Hretr Hpost Hst) as [He Hst'].
  destruct (process_file TZ_OFFSET to_datetime ftp env i st filename) as [st1 e].
  simpl in He, Hst'. subst e. now apply IH.
Qed.

Lemma cycle_quiet env db calls :
  -24 < TZ_OFFSET < 24 -> env_ok to_datetime env -> store_ok db ->
  snd (cycle TZ_OFFSET to_datetime env db calls) = None /\
  store_ok (fst (fst (cycle TZ_OFFSET to_datetime env db calls))).
Proof.
  intros Htz [Hftp Hpost] Hst. unfold cycle.
  destruct (create_ftp_client env) as [ftp|]; [|auto].
  destruct Hftp as [Hmlsd Hretr].
  unfold list_remote_txt_files_with_mtime. rewrite Hmlsd.
  pose proof (get_last_timestamp_cases db) as Hget. unfold store_ok in Hst.
  destruct (db !! "last_timestamp"%string) as [s|] eqn:Hs.
  - destruct Hst as [t Ht]. rewrite Ht in Hget. rewrite Hget.
    match goal with |- context [process_files _ _ _ _ _ ?st ?fs] =>
      destruct (process_files_quiet ftp env fs 0 st Htz Hretr Hpost) as [He Hst'];
      [simpl; unfold store_ok; rewrite Hs; eauto|];
      destruct (process_files TZ_OFFSET to_datetime ftp env 0 st fs) as [st' e]
    end.
    auto.
  - rewrite Hget.
    match goal with |- context [process_files _ _ _ _ _ ?st ?fs] =>
      destruct (process_files_quiet ftp env fs 0 st Htz Hretr Hpost) as [He Hst'];
      [simpl; unfold store_ok; now rewrite Hs|];
      destruct (process_files TZ_OFFSET to_datetime ftp env 0 st fs) as [st' e]
    end.
    auto.
Qed.

Lemma cycles_quiet envs : forall db calls,
  -24 < TZ_OFFSET < 24 -> Forall (env_ok to_datetime) envs -> store_ok db ->
  snd (cycles TZ_OFFSET to_datetime envs db calls) = None.
Proof.
  induction envs as [|env rest IH]; intros db calls Htz Henvs Hst; [reflexivity|].
  apply Forall_cons in Henvs as [Henv Hrest]. simpl.
  destruct (cycle_quiet env db calls Htz Henv Hst) as [He Hst'].
  destruct (cycle TZ_OFFSET to_datetime env db calls) as [[db' calls'] e].
  simpl in He, Hst'. subst e. now apply IH.
Qed.

(** X16.  No exception ends [main] over cycles in which the listing does
    not raise, every transfer either succeeds or raises one of
    [FTP_ERRORS], every pressure cell is NaN or has a finite hundredfold,
    every element of a timestamp column is a timestamp of the year 1000 or
    later, none being [NaT], and [requests.post] raises nothing but
    [RequestException], provided that [TZ_OFFSET] is strictly between -24 and
    24 and the store holds no watermark or one that is a timestamp. *)
Theorem main_never_raises (envs : list cycle_env) (db : gmap string string) :
  -24 < TZ_OFFSET < 24 -> store_ok db -> Forall (env_ok to_datetime) envs ->
  snd (main TZ_OFFSET to_datetime envs db) = None.
Proof.
  intros Htz Hst Henvs. unfold main, setup_metadata_table. now apply cycles_quiet.
Qed.

End RunFacts.

Lemma main_never_raises_witness :
  snd (main 4 Clock12.to_datetime [env_accepting; env_rejecting] ∅) = None.
Proof.
  apply (main_never_raises 4 Clock12.to_datetime).
  - lia.
  - exact I.
  - assert (Hretr : forall (i : nat) (f : string),
              retr_ok Clock12.to_datetime (retrbinary ftp_A i f)).
    { intros i f. split.
      - apply Forall_cons; split; [right; vm_compute; reflexivity|].
        apply Forall_cons; split; [left; reflexivity|constructor].
      - intros tss Htss.
        assert (E : Clock12.to_datetime (row_date <$> rows df_A) (row_time <$> rows df_A)
                    = Some [Timestamp dt_2024_01_01_000100; Timestamp dt_2024_01_01_000000])
          by (vm_compute; reflexivity).
        change (retrbinary ftp_A i f) with (RetrBytes (Some df_A)) in *.
        rewrite E in Htss. injection Htss as <-.
        repeat constructor; simpl; lia. }
    assert (Hpost : forall (env : cycle_env) (code : Z),
              post env = (fun _ _ => PostResponse code) ->
              forall i ms, post_ok (post env i ms)).
    { intros env code -> i ms. exact I. }
    apply Forall_cons; split; [|apply Forall_cons; split; [|constructor]].
    + split; [split; [reflexivity|exact Hretr]|]. now apply (Hpost _ 200).
    + split; [split; [reflexivity|exact Hretr]|]. now apply (Hpost _ 500).
Defined.

(** ** The watermark store from the year 1000 on *)

(** X17.  For a timestamp of the year 1000 or later, reading the store after
    [set_last_timestamp(db, t)] gives [t] with its microsecond set to zero
    and its other fields kept; it gives [t] itself when [t] has no sub-second
    part. *)
Theorem set_get_last_timestamp_from_year_1000 (db : gmap string string) (t : datetime) :
  1000 <= year t ->
  exists t', get_last_timestamp (set_last_timestamp db t) = Ok (Some t') /\
    dt_tuple t' = [year t; month t; day t; hour t; minute t; second t; 0] /\
    (microsecond t = 0 -> t' = t).
Proof.
  intros Hy. exists (replace_microsecond_0 t).
  split; [now apply get_set_last_timestamp|].
  split; [apply replace_microsecond_0_fields|]. apply replace_microsecond_0_id.
Qed.

Lemma set_get_last_timestamp_from_year_1000_witness :
  get_last_timestamp (set_last_timestamp ∅ dt_2024_01_01_000100)
  = Ok (Some dt_2024_01_01_000100).
Proof.
  destruct (set_get_last_timestamp_from_year_1000 ∅ dt_2024_01_01_000100)
    as (t' & Hget & _ & Hid); [simpl; lia|].
  rewrite Hget. rewrite (Hid eq_refl). reflexivity.
Defined.

(** ** The history of the store *)

Lemma stored_values_snoc db calls t :
  stored_values db (calls ++ [t]) = stored_values db calls ++ [strftime t].
Proof. unfold stored_values. now rewrite fmap_app, app_assoc. Qed.

Lemma stored_values_last db calls :
  fold_left set_last_timestamp calls db !! "last_timestamp"%string
  = last (stored_values db calls).
Proof.
  induction calls as [|t calls IH] using rev_ind.
  - unfold stored_values. simpl. rewrite app_nil_r.
    now destruct (db !! "last_timestamp"%string).
  - rewrite fold_left_app, stored_values_snoc, last_snoc. simpl.
    unfold set_last_timestamp. now rewrite lookup_insert_eq.
Qed.

Lemma truncated_le (t : datetime) : dt_leb (replace_microsecond_0 t) t = true.
Proof.
  destruct (datetime_bounds t) as (_ & _ & _ & _ & _ & _ & Hus).
  unfold dt_leb. rewrite replace_microsecond_0_fields.
  unfold Lex.leb, dt_tuple. simpl.
  rewrite !Z.compare_refl.
  destruct (microsecond t); try reflexivity. lia.
Qed.

Lemma lt_truncated (a b : datetime) :
  microsecond a = 0 -> dt_ltb a b = true -> dt_leb a (replace_microsecond_0 b) = true.
Proof.
  intros Ha. unfold dt_ltb, dt_leb. rewrite replace_microsecond_0_fields.
  unfold Lex.ltb, Lex.leb, dt_tuple. simpl. rewrite Ha.
  destruct (year a ?= year b); try reflexivity; try discriminate.
  destruct (month a ?= month b); try reflexivity; try discriminate.
  destruct (day a ?= day b); try reflexivity; try discriminate.
  destruct (hour a ?= hour b); try reflexivity; try discriminate.
  destruct (minute a ?= minute b); try reflexivity; try discriminate.
  destruct (second a ?= second b); try reflexivity; try discriminate.
Qed.

Lemma process_raw_file_newest_in_column TZ_OFFSET to_datetime fetched last_timestamp
    measurements newest_timestamp :
  process_raw_file TZ_OFFSET to_datetime fetched last_timestamp
    = Ok (Some (measurements, newest_timestamp)) ->
  exists df tss,
    fetched = RetrBytes (Some df) /\
    to_datetime (row_date <$> rows df) (row_time <$> rows df) = Some tss /\
    newest_timestamp ∈ tss.
Proof.
  unfold process_raw_file.
  destruct fetched as [e|[df|]]; [destruct (FTP_ERRORS e); discriminate| |discriminate].
  destruct (df_empty df); [discriminate|].
  destruct (negb _); [discriminate|].
  destruct (to_datetime _ _) as [tss|] eqn:Hts; [|discriminate].
  set (stamped := filter _ _).
  destruct stamped as [|r0 rest] eqn:E; [discriminate|]. rewrite <- E.
  destruct (last (sorted_by ts_key stamped)) as [[row newest]|] eqn:Hlast; [|discriminate].
  destruct (build_measurements _ _); [|discriminate].
  intros [= _ <-]. exists df, tss.
  split; [reflexivity|]. split; [exact Hts|].
  apply last_Some_elem_of in Hlast. rewrite sorted_by_elem_of in Hlast.
  apply list_elem_of_filter in Hlast as [_ Hin]. now apply elem_of_zip_r in Hin.
Qed.

Section History.

Variable TZ_OFFSET : Z.
Variable to_datetime : list (option string) -> list (option string) -> option (list timestamp).

Lemma process_file_loop_ok db0 ftp env i st filename :
  create_ftp_client env = Some ftp ->
  four_digit_years to_datetime env ->
  loop_ok db0 st ->
  loop_ok db0 (fst (process_file TZ_OFFSET to_datetime ftp env i st filename)).
Proof.
  intros Hftp Hyears Hok.
  pose proof (process_file_cases TZ_OFFSET to_datetime ftp env i st filename) as Hc.
  destruct (process_raw_file _ _ _ _) as [[[ms [newest|]]|]|e] eqn:Hp;
    try (now rewrite Hc).
  destruct (send_measurements_through_api _) as [[|]|e];
    try (now rewrite Hc).
  rewrite Hc. simpl.
  assert (Hy : 1000 <= year newest).
  { destruct (process_raw_file_newest_in_column _ _ _ _ _ _ Hp)
      as (df & tss & Hdf & Hts & Hin).
    exact (Hyears ftp i filename df tss newest Hftp Hdf Hts Hin). }
  apply process_raw_file_newest in Hp. unfold newer in Hp.
  destruct Hok as [[Hdb Hsorted] Hbelow].
  assert (Hold : forall v, v ∈ stored_values db0 (st_calls st) ->
            exists tv, strptime v = Ok tv /\ dt_ltb tv newest = true).
  { intros v Hv. destruct (Hbelow v Hv) as (tv & lt & Hv1 & Hlt & Hle).
    rewrite Hlt in Hp. exists tv. split; [assumption|].
    now apply dt_leb_ltb_trans with lt. }
  split; [split|]; simpl.
  - now rewrite fold_left_app, <- Hdb.
  - rewrite stored_values_snoc. apply StronglySorted_app_2.
    + intros v1 v2 Hv1 ->%list_elem_of_singleton.
      destruct (Hold v1 Hv1) as (tv & Htv & Hlt).
      exists tv, (replace_microsecond_0 newest).
      split; [assumption|]. split; [now apply strptime_strftime|].
      apply lt_truncated; [|assumption]. now apply strptime_microsecond with v1.
    + assumption.
    + repeat constructor.
  - intros v. rewrite stored_values_snoc.
    intros [Hv| ->%list_elem_of_singleton]%elem_of_app.
    + destruct (Hold v Hv) as (tv & Htv & Hlt).
      exists tv, newest. repeat split; [assumption|]. now apply dt_ltb_leb.
    + exists (replace_microsecond_0 newest), newest.
      repeat split; [now apply strptime_strftime|apply truncated_le].
Qed.

Lemma process_files_loop_ok db0 ftp env files : forall i st,
  create_ftp_client env = Some ftp ->
  four_digit_years to_datetime env ->
  loop_ok db0 st ->
  loop_ok db0 (fst (process_files TZ_OFFSET to_datetime ftp env i st files)).
Proof.
  induction files as [|filename rest IH]; intros i st Hftp Hyears Hok; simpl;
    [assumption|].
  pose proof (process_file_loop_ok db0 ftp env i st filename Hftp Hyears Hok) as Hstep.
  destruct (process_file TZ_OFFSET to_datetime ftp env i st filename) as [st' [e|]];
    simpl in *; [assumption|]. now apply IH.
Qed.

Lemma cycle_start_loop_ok db0 db calls last_timestamp :
  history_ok db0 db calls ->
  get_last_timestamp db = Ok last_timestamp ->
  loop_ok db0 {| st_db := db; st_last_timestamp := last_timestamp; st_calls := calls |}.
Proof.
  intros [Hdb Hsorted] Hget. split; [split; assumption|]. simpl.
  pose proof (get_last_timestamp_cases db) as Hc.
  pose proof (stored_values_last db0 calls) as Hlast. rewrite <- Hdb in Hlast.
  intros v Hv.
  destruct (db !! "last_timestamp"%string) as [s|] eqn:Hs.
  - destruct (strptime s) as [t|e] eqn:Ht; [|congruence].
    rewrite Hc in Hget. injection Hget as <-.
    symmetry in Hlast. apply last_Some in Hlast as [h Hh]. rewrite Hh in Hv, Hsorted.
    apply elem_of_app in Hv as [Hv| ->%list_elem_of_singleton].
    + assert (Hle : watermark_le v s).
      { eapply StronglySorted_app_1_elem_of; eauto. set_solver. }
      destruct Hle as (tv & ts & Htv & Hts & Hle).
      exists tv, t. repeat split; [assumption|]. congruence.
    + exists t, t. repeat split; [assumption|apply dt_leb_refl].
  - symmetry in Hlast. apply last_None in Hlast. rewrite Hlast in Hv. set_solver.
Qed.

Lemma cycle_history_ok db0 env db calls :
  four_digit_years to_datetime env ->
  history_ok db0 db calls ->
  let r := cycle TZ_OFFSET to_datetime env db calls in
  history_ok db0 (fst (fst r)) (snd (fst r)).
Proof.
  intros Hyears Hok. unfold cycle.
  destruct (create_ftp_client env) as [ftp|] eqn:Hftp; [|assumption].
  destruct (list_remote_txt_files_with_mtime (mlsd ftp)) as [remote_files|e]; [|assumption].
  destruct (get_last_timestamp db) as [last_timestamp|e] eqn:Hget; [|assumption].
  pose proof (cycle_start_loop_ok _ _ _ _ Hok Hget) as Hstart.
  pose proof (process_files_loop_ok db0 ftp env
                (select_files_to_process remote_files last_timestamp) 0 _
                Hftp Hyears Hstart) as Hend.
  destruct (process_files _ _ _ _ _ _ _) as [st e]. simpl in *. apply Hend.
Qed.

Lemma cycles_history_ok db0 envs : forall db calls,
  Forall (four_digit_years to_datetime) envs ->
  history_ok db0 db calls ->
  let r := cycles TZ_OFFSET to_datetime envs db calls in
  history_ok db0 (fst (fst r)) (snd (fst r)).
Proof.
  induction envs as [|env rest IH]; intros db calls Hyears Hok; simpl; [assumption|].
  apply Forall_cons in Hyears as [Hyear Hyears].
  pose proof (cycle_history_ok db0 env db calls Hyear Hok) as Hstep.
  destruct (cycle TZ_OFFSET to_datetime env db calls) as [[db' calls'] [e|]];
    simpl in *; [assumption|]. now apply IH.
Qed.

(** X18.  Over cycles whose files hold no timestamp before the year 1000,
    the store ends as the initial one with the calls of [set_last_timestamp]
    applied in order, and in the history of the key, which is the value found
    at the start followed by the values written, every value is a timestamp
    not earlier than any before it. *)
Theorem watermark_monotone_from_year_1000 (envs : list cycle_env)
    (db : gmap string string) :
  Forall (four_digit_years to_datetime) envs ->
  let r := main TZ_OFFSET to_datetime envs db in
  let db' := fst (fst r) in
  let calls := snd (fst r) in
  db' = fold_left set_last_timestamp calls db /\
  StronglySorted watermark_le (stored_values db calls).
Proof.
  intros Hyears. unfold main, setup_metadata_table.
  apply (cycles_history_ok db envs db [] Hyears). split; [reflexivity|].
  unfold stored_values. simpl. rewrite app_nil_r.
  destruct (db !! "last_timestamp"%string); repeat constructor.
Qed.

End History.

Lemma watermark_monotone_from_year_1000_witness :
  StronglySorted watermark_le
    (stored_values db_000030
       (snd (fst (main 4 Clock12.to_datetime [env_accepting; env_rejecting] db_000030)))).
Proof.
  apply (watermark_monotone_from_year_1000 4 Clock12.to_datetime
           [env_accepting; env_rejecting] db_000030).
  assert (Hyears : forall env, create_ftp_client env = Some ftp_A ->
            four_digit_years Clock12.to_datetime env).
  { intros env Henv ftp i filename df tss t Hftp Hdf Hts Hin.
    rewrite Henv in Hftp. injection Hftp as <-.
    change (retrbinary ftp_A i filename) with (RetrBytes (Some df_A)) in Hdf.
    injection Hdf as <-.
    assert (E : Clock12.to_datetime (row_date <$> rows df_A) (row_time <$> rows df_A)
                = Some [Timestamp dt_2024_01_01_000100; Timestamp dt_2024_01_01_000000])
      by (vm_compute; reflexivity).
    rewrite E in Hts. injection Hts as <-.
    apply elem_of_cons in Hin as [[= ->]|Hin]; [simpl; lia|].
    apply list_elem_of_singleton in Hin as [= ->]. simpl; lia. }
  apply Forall_cons; split; [now apply Hyears|].
  apply Forall_cons; split; [now apply Hyears|constructor].
Defined.
